(** * Voice-activity statistics bot (bot.py): a shallow embedding

    The program keeps three process-wide dictionaries ([user_stats],
    [voice_join_times], [stream_start_times]), updates them from
    voice-state events, answers three slash-command queries from them
    and persists [user_stats] as JSON.

    Modelling choices.
    - Python numbers ([int] and [float]) are exact rationals [Q]; the
      rounding of binary floating point is outside the model.
    - The three global dictionaries are keyed by user id and are never
      iterated except to be saved, so they are finite maps [gmap Z _].
      A stats record, and any other dictionary decoded from the stats
      file, is an insertion-ordered association list.
    - Python exceptions are explicit: a computation returns [Ok a] or
      [Raise e] together with the world it left behind, so that the
      mutations made before a [raise] stay visible.
    - [time.time()] is the next reading of a clock carried by the world;
      nothing is assumed about successive readings unless stated.
    - The text of stats.json is abstracted to what [json.load] makes of
      it: the exception it raises on it, or the value it decodes to.
      Opening the file fails when the world says so ([io_fault]).
    - A [str] is the byte string of its UTF-8 encoding; [int] reads it
      as CPython does, white space and decimal digits of every script
      included.
    - discord.py catches what an event handler raises, so a run of events
      continues from the world the failed handler left. *)

From Stdlib Require Import Ascii QArith Qround Lqa.
From stdpp Require Import gmap strings list fin_maps pretty.

Set Warnings "-register-all".

Local Open Scope Z_scope.
Local Open Scope string_scope.

(** ** Python values and exceptions *)

Inductive exn :=
  | AttributeError | TypeError | ValueError | KeyError
  | JSONDecodeError | OSError | OverflowError
  | UnicodeDecodeError | RecursionError.

Inductive result (A : Type) :=
  | Ok (a : A)
  | Raise (e : exn).
Arguments Ok {A} a.
Arguments Raise {A} e.

(** The values [json.load] can produce. *)
Inductive pyval :=
  | PNone
  | PBool (b : bool)
  | PNum (q : Q)
  | PStr (s : string)
  | PList (l : list pyval)
  | PDict (d : list (string * pyval)).

(** [d.get(k)] and [d[k] = v] on an insertion-ordered dictionary: an
    existing key keeps its position. *)
Fixpoint dict_get (k : string) (d : list (string * pyval)) : option pyval :=
  match d with
  | [] => None
  | (k', v) :: d' => if decide (k' = k) then Some v else dict_get k d'
  end.

Fixpoint dict_set (k : string) (v : pyval) (d : list (string * pyval))
  : list (string * pyval) :=
  match d with
  | [] => [(k, v)]
  | (k', v') :: d' =>
      if decide (k' = k) then (k, v) :: d' else (k', v') :: dict_set k v d'
  end.

(** The numeric reading Python's arithmetic gives a value: [bool] is a
    subclass of [int]; everything else is not a number. *)
Definition as_number (v : pyval) : option Q :=
  match v with
  | PNum q => Some q
  | PBool true => Some 1%Q
  | PBool false => Some 0%Q
  | _ => None
  end.

(** [current_value + value] where [value] is a number. *)
Definition py_add (cur : pyval) (value : Q) : result pyval :=
  match as_number cur with
  | Some a => Ok (PNum (a + value)%Q)
  | None => Raise TypeError
  end.

(** ** discord.py objects, as far as the program reads them *)

Record Member := { member_id : Z; display_name : string }.
Record VoiceChannel := { name : string }.
Record VoiceState := { channel : option VoiceChannel; self_stream : bool }.

(** ** Output *)

(** One constructor per [print] call of the source, with the values its
    f-string interpolates. *)
Inductive line :=
  | LoadedStats
  | ErrorReading
  | UnexpectedLoadError (e : exn)
  | StatsFileNotFound
  | ErrorSaving (e : exn)
  | JoinedChannel (who chan : string)
  | LeftChannel (who chan : string)
  | AddedCallTime (duration : Q) (who : string)
  | StoppedTrackingStream (who : string)
  | StartedStreaming (who chan : string)
  | StoppedStreaming (who chan : string)
  | AddedStreamTime (duration : Q) (who : string).

(** The follow-up message of each slash command. *)
Inductive reply :=
  | SpentInCalls (who formatted_time : string)
  | SpentStreaming (who formatted_time : string)
  | JoinedTimes (who : string) (count : pyval).

(** ** The world *)

(** What the file holds: a text on which [json.load] raises [e] (an
    empty file or one that is not JSON: [JSONDecodeError]; bytes that are
    not in the expected encoding: [UnicodeDecodeError]; brackets nested
    deeper than the interpreter's stack allows: [RecursionError]; a
    number with more digits than the interpreter converts:
    [ValueError]), or a text that decodes to [v]. *)
Inductive file_text :=
  | Undecodable (e : exn)
  | Decodes (v : pyval).

Record world := World {
  user_stats : gmap Z pyval;
  voice_join_times : gmap Z Q;
  stream_start_times : gmap Z Q;
  clock : nat → Q;
  ticks : nat;
  stats_file : option file_text;
  io_fault : bool;
  stdout : list line
}.

Definition with_user_stats (us : gmap Z pyval) (w : world) : world :=
  World us (voice_join_times w) (stream_start_times w)
        (clock w) (ticks w) (stats_file w) (io_fault w) (stdout w).
Definition with_voice_join_times (m : gmap Z Q) (w : world) : world :=
  World (user_stats w) m (stream_start_times w)
        (clock w) (ticks w) (stats_file w) (io_fault w) (stdout w).
Definition with_stream_start_times (m : gmap Z Q) (w : world) : world :=
  World (user_stats w) (voice_join_times w) m
        (clock w) (ticks w) (stats_file w) (io_fault w) (stdout w).
Definition with_ticks (n : nat) (w : world) : world :=
  World (user_stats w) (voice_join_times w) (stream_start_times w)
        (clock w) n (stats_file w) (io_fault w) (stdout w).
Definition with_stats_file (f : option file_text) (w : world) : world :=
  World (user_stats w) (voice_join_times w) (stream_start_times w)
        (clock w) (ticks w) f (io_fault w) (stdout w).
Definition with_stdout (out : list line) (w : world) : world :=
  World (user_stats w) (voice_join_times w) (stream_start_times w)
        (clock w) (ticks w) (stats_file w) (io_fault w) out.

(** The three dictionaries as the module creates them; the clock, the
    stats file and the state of the file system are the environment's. *)
Definition initial_world (clk : nat → Q) (file : option file_text) (fault : bool)
  : world :=
  World ∅ ∅ ∅ clk 0 file fault [].

(** ** Computations that mutate the world and may raise *)

Definition M (A : Type) : Type := world → result A * world.

Definition ret {A} (a : A) : M A := λ w, (Ok a, w).
Definition raise {A} (e : exn) : M A := λ w, (Raise e, w).
Definition bind {A B} (m : M A) (k : A → M B) : M B :=
  λ w, match m w with
       | (Ok a, w') => k a w'
       | (Raise e, w') => (Raise e, w')
       end.
Definition lift {A} (r : result A) : M A := λ w, (r, w).

(** [try: m  except Exception as e: h e] *)
Definition try_except {A} (m : M A) (h : exn → M A) : M A :=
  λ w, match m w with
       | (Ok a, w') => (Ok a, w')
       | (Raise e, w') => h e w'
       end.

Notation "'let!' x ':=' m 'in' k" := (bind m (λ x, k))
  (at level 10, x name, m at level 100, k at level 200).
Notation "m '>>' k" := (bind m (λ _, k))
  (at level 100, k at level 200, right associativity).

Definition gets {A} (f : world → A) : M A := λ w, (Ok (f w), w).
Definition modify (f : world → world) : M unit := λ w, (Ok tt, f w).

Definition print (l : line) : M unit :=
  modify (λ w, with_stdout (stdout w ++ [l]) w).

(** [time.time()] *)
Definition time_time : M Q :=
  λ w, (Ok (clock w (ticks w)), with_ticks (S (ticks w)) w).

(** [x.name] where [x] may be [None]. *)
Definition channel_name (c : option VoiceChannel) : M string :=
  match c with
  | Some ch => ret (name ch)
  | None => raise AttributeError
  end.

(** [d.pop(user_id)] on one of the two open-session dictionaries. *)
Definition pop_time (m : gmap Z Q) (user_id : Z) : result (Q * gmap Z Q) :=
  match m !! user_id with
  | Some t => Ok (t, delete user_id m)
  | None => Raise KeyError
  end.

(** ** Helper functions *)

Definition zero_record : pyval :=
  PDict [("call_time", PNum 0); ("stream_time", PNum 0); ("join_count", PNum 0)].

(** [user_stats[user_id]] *)
Definition user_record (user_id : Z) : M pyval :=
  λ w, match user_stats w !! user_id with
       | Some r => (Ok r, w)
       | None => (Raise KeyError, w)
       end.

(** [record.get(stat_name, default)] *)
Definition record_get (r : pyval) (stat_name : string) (default : pyval)
  : result pyval :=
  match r with
  | PDict d => Ok (from_option (λ v, v) default (dict_get stat_name d))
  | _ => Raise AttributeError
  end.

(** [record[stat_name] = v] *)
Definition record_set (r : pyval) (stat_name : string) (v : pyval)
  : result pyval :=
  match r with
  | PDict d => Ok (PDict (dict_set stat_name v d))
  | _ => Raise TypeError
  end.

(** [if user_id not in user_stats: user_stats[user_id] = {...}] *)
Definition init_if_absent (user_id : Z) : M unit :=
  λ w, match user_stats w !! user_id with
       | Some _ => (Ok tt, w)
       | None => (Ok tt, with_user_stats (<[user_id := zero_record]> (user_stats w)) w)
       end.

(** bot.py, [get_user_stat]; [int(user_id)] is the identity on the
    integer ids the callers pass. *)
Definition get_user_stat (user_id : Z) (stat_name : string) (default : pyval)
  : M pyval :=
  init_if_absent user_id >>
  let! r := user_record user_id in
  lift (record_get r stat_name default).

(** bot.py, [increment_user_stat].  The right-hand side of the
    assignment is evaluated before the record is looked up again. *)
Definition increment_user_stat (user_id : Z) (stat_name : string) (value : Q)
  : M unit :=
  let! current_value := get_user_stat user_id stat_name (PNum 0) in
  init_if_absent user_id >>
  let! new_value := lift (py_add current_value value) in
  let! r := user_record user_id in
  let! r' := lift (record_set r stat_name new_value) in
  modify (λ w, with_user_stats (<[user_id := r']> (user_stats w)) w).

(** [k in d] for one of the two open-session dictionaries. *)
Definition contains (m : gmap Z Q) (k : Z) : bool :=
  match m !! k with Some _ => true | None => false end.

Definition is_none {A} (o : option A) : bool :=
  match o with None => true | Some _ => false end.

(** [voice_join_times.pop(user_id)] and [stream_start_times.pop(user_id)] *)
Definition pop_voice_join_time (user_id : Z) : M Q :=
  λ w, match pop_time (voice_join_times w) user_id with
       | Ok (t, m) => (Ok t, with_voice_join_times m w)
       | Raise e => (Raise e, w)
       end.

Definition pop_stream_start_time (user_id : Z) : M Q :=
  λ w, match pop_time (stream_start_times w) user_id with
       | Ok (t, m) => (Ok t, with_stream_start_times m w)
       | Raise e => (Raise e, w)
       end.

(** [int(seconds)]: truncation towards zero. *)
Definition py_int_of_number (q : Q) : Z := Z.quot (Qnum q) (Z.pos (Qden q)).

(** ["%02d" % n] for [0 <= n]. *)
Definition two_digits (n : Z) : string :=
  if decide (n < 10) then "0" +:+ pretty n else pretty n.

(** [str(timedelta(seconds=n))] for an integer [0 <= n]: the constructor
    normalises to days and seconds and refuses more than 999999999 days. *)
Definition str_timedelta (n : Z) : result string :=
  let days := n `div` 86400 in
  let seconds := n `mod` 86400 in
  if decide (999999999 < days) then Raise OverflowError
  else
    let mm := seconds `div` 60 in
    let ss := seconds `mod` 60 in
    let hh := mm `div` 60 in
    let mm := mm `mod` 60 in
    let s := pretty hh +:+ ":" +:+ two_digits mm +:+ ":" +:+ two_digits ss in
    Ok (if decide (days = 0) then s
        else pretty days +:+ " day" +:+ (if decide (days = 1) then "" else "s")
             +:+ ", " +:+ s).

(** bot.py, [format_duration]. *)
Definition format_duration (seconds : pyval) : result string :=
  match as_number seconds with
  | None => Raise TypeError
  | Some s =>
      let s := if Qlt_le_dec s 0 then 0%Q else s in
      str_timedelta (py_int_of_number s)
  end.

(** ** Event handling *)

(** The three places where an open session is closed and credited.  Each
    pops the start instant, reads the clock, and adds the difference to
    the matching statistic. *)

(** bot.py, [on_voice_state_update], the leave branch, call session. *)
Definition credit_call_time (member : Member) : M unit :=
  let user_id := member_id member in
  let! in_call := gets (λ w, contains (voice_join_times w) user_id) in
  if in_call : bool then
    let! join_time := pop_voice_join_time user_id in
    let! now := time_time in
    let duration := (now - join_time)%Q in
    increment_user_stat user_id "call_time" duration >>
    print (AddedCallTime duration (display_name member))
  else ret tt.

(** bot.py, [on_voice_state_update], the leave branch, stream session. *)
Definition credit_stream_time_on_leave (member : Member) : M unit :=
  let user_id := member_id member in
  let! streaming := gets (λ w, contains (stream_start_times w) user_id) in
  if streaming : bool then
    let! start_time := pop_stream_start_time user_id in
    let! now := time_time in
    let duration := (now - start_time)%Q in
    increment_user_stat user_id "stream_time" duration >>
    print (StoppedTrackingStream (display_name member))
  else ret tt.

(** bot.py, [on_voice_state_update], the stopped-streaming branch. *)
Definition credit_stream_time (member : Member) : M unit :=
  let user_id := member_id member in
  let! streaming := gets (λ w, contains (stream_start_times w) user_id) in
  if streaming : bool then
    let! start_time := pop_stream_start_time user_id in
    let! now := time_time in
    let duration := (now - start_time)%Q in
    increment_user_stat user_id "stream_time" duration >>
    print (AddedStreamTime duration (display_name member))
  else ret tt.

(** bot.py, [on_voice_state_update], the first [if]/[elif]:
    join/leave tracking. *)
Definition join_leave_tracking (member : Member) (before after : VoiceState)
  : M unit :=
  let user_id := member_id member in
  if is_none (channel before) && negb (is_none (channel after)) then
    let! chan := channel_name (channel after) in
    print (JoinedChannel (display_name member) chan) >>
    let! now := time_time in
    modify (λ w, with_voice_join_times (<[user_id := now]> (voice_join_times w)) w) >>
    increment_user_stat user_id "join_count" 1
  else if negb (is_none (channel before)) && is_none (channel after) then
    let! chan := channel_name (channel before) in
    print (LeftChannel (display_name member) chan) >>
    credit_call_time member >>
    credit_stream_time_on_leave member
  else ret tt.

(** bot.py, [on_voice_state_update], the second [if]/[elif]:
    streaming tracking. *)
Definition streaming_tracking (member : Member) (before after : VoiceState)
  : M unit :=
  let user_id := member_id member in
  if negb (self_stream before) && self_stream after then
    let! chan := channel_name (channel after) in
    print (StartedStreaming (display_name member) chan) >>
    let! now := time_time in
    modify (λ w, with_stream_start_times (<[user_id := now]> (stream_start_times w)) w)
  else if self_stream before && negb (self_stream after)
          && negb (is_none (channel after)) then
    let! chan := channel_name (channel after) in
    print (StoppedStreaming (display_name member) chan) >>
    credit_stream_time member
  else ret tt.

(** bot.py, [on_voice_state_update]. *)
Definition on_voice_state_update (member : Member) (before after : VoiceState)
  : M unit :=
  join_leave_tracking member before after >>
  streaming_tracking member before after.

(** One delivered event.  discord.py runs the handler inside its own
    [try]: an exception leaving the handler is reported by the library
    and the next event meets the dictionaries as the handler left them. *)
Record event := Event { ev_member : Member; ev_before : VoiceState; ev_after : VoiceState }.

Definition dispatch (e : event) (w : world) : world :=
  (on_voice_state_update (ev_member e) (ev_before e) (ev_after e) w).2.

Definition run_events (es : list event) (w : world) : world :=
  foldl (λ w e, dispatch e w) w es.

(** ** Slash commands *)

(** [d[user.id]] on an open-session dictionary. *)
Definition start_of (m : gmap Z Q) (user_id : Z) : result Q :=
  match m !! user_id with
  | Some t => Ok t
  | None => Raise KeyError
  end.

(** bot.py, [calltime], up to the value of [total_seconds] that is
    handed to [format_duration]. *)
Definition calltime_total (user : Member) : M pyval :=
  let! total_seconds := get_user_stat (member_id user) "call_time" (PNum 0) in
  let! in_call := gets (λ w, contains (voice_join_times w) (member_id user)) in
  if in_call : bool then
    let! now := time_time in
    let! start := (λ w, (start_of (voice_join_times w) (member_id user), w)) in
    lift (py_add total_seconds (now - start))
  else ret total_seconds.

(** bot.py, [calltime]: the follow-up message. *)
Definition calltime (user : Member) : M reply :=
  let! total_seconds := calltime_total user in
  let! formatted_time := lift (format_duration total_seconds) in
  ret (SpentInCalls (display_name user) formatted_time).

(** bot.py, [streamtime], up to [total_seconds]. *)
Definition streamtime_total (user : Member) : M pyval :=
  let! total_seconds := get_user_stat (member_id user) "stream_time" (PNum 0) in
  let! streaming := gets (λ w, contains (stream_start_times w) (member_id user)) in
  if streaming : bool then
    let! now := time_time in
    let! start := (λ w, (start_of (stream_start_times w) (member_id user), w)) in
    lift (py_add total_seconds (now - start))
  else ret total_seconds.

(** bot.py, [streamtime]: the follow-up message. *)
Definition streamtime (user : Member) : M reply :=
  let! total_seconds := streamtime_total user in
  let! formatted_time := lift (format_duration total_seconds) in
  ret (SpentStreaming (display_name user) formatted_time).

(** bot.py, [joincount]. *)
Definition joincount (user : Member) : M reply :=
  let! count := get_user_stat (member_id user) "join_count" (PNum 0) in
  ret (JoinedTimes (display_name user) count).

(** ** Persistence *)

(** [str(k)] for an integer key is stdpp's [pretty] on [Z]: a minus sign
    for a negative number, then the decimal digits without padding.  User
    ids are 64-bit numbers, far shorter than the length at which CPython
    refuses to convert; the model does not bound them. *)
Definition py_str (k : Z) : string := pretty k.

(** A [str] is held as the bytes of its UTF-8 encoding, a lone
    surrogate (which an escape in a JSON text can produce) as the three
    bytes the same scheme gives it: every [str] is one byte string, and
    a [str] of ASCII characters is itself.  A byte string that is no
    such encoding stands for no [str]. *)
Definition byte_value (c : ascii) : Z := Z.of_N (N_of_ascii c).

Definition is_ascii (c : ascii) : bool := (byte_value c <? 128)%Z.

(** Every character of [s] satisfies [p]. *)
Fixpoint all_chars (p : ascii → bool) (s : string) : bool :=
  match s with
  | EmptyString => true
  | String c s' => p c && all_chars p s'
  end.

(** The six payload bits of a continuation byte [10xxxxxx]. *)
Definition continuation (c : ascii) : option Z :=
  let b := byte_value c in
  if ((128 <=? b) && (b <? 192))%Z then Some (b - 128) else None.

(** The code points of a [str]: each one is written in the shortest of
    the forms of one to four bytes and is at most U+10FFFF. *)
Fixpoint code_points (s : string) : option (list Z) :=
  match s with
  | EmptyString => Some []
  | String c0 s1 =>
      let b0 := byte_value c0 in
      if (b0 <? 128)%Z then cons b0 <$> code_points s1
      else if (b0 <? 192)%Z then None
      else if (b0 <? 224)%Z then
        match s1 with
        | String c1 s2 =>
            x1 ← continuation c1;
            let ch := (b0 - 192) * 64 + x1 in
            if (128 <=? ch)%Z then cons ch <$> code_points s2 else None
        | _ => None
        end
      else if (b0 <? 240)%Z then
        match s1 with
        | String c1 (String c2 s3) =>
            x1 ← continuation c1;
            x2 ← continuation c2;
            let ch := ((b0 - 224) * 64 + x1) * 64 + x2 in
            if (2048 <=? ch)%Z then cons ch <$> code_points s3 else None
        | _ => None
        end
      else
        match s1 with
        | String c1 (String c2 (String c3 s4)) =>
            x1 ← continuation c1;
            x2 ← continuation c2;
            x3 ← continuation c3;
            let ch := (((b0 - 240) * 64 + x1) * 64 + x2) * 64 + x3 in
            if ((65536 <=? ch) && (ch <=? 1114111))%Z
            then cons ch <$> code_points s4 else None
        | _ => None
        end
  end.

(** CPython, [_PyUnicode_IsWhitespace], from U+0080 on. *)
Definition unicode_is_whitespace (ch : Z) : bool :=
  existsb (Z.eqb ch)
    [0x85; 0xA0; 0x1680; 0x2028; 0x2029; 0x202F; 0x205F; 0x3000]
  || ((0x2000 <=? ch) && (ch <=? 0x200A))%Z.

(** The digit zero of every script that has decimal digits (general
    category Nd) in Unicode 14.0, the version of CPython 3.11; the nine
    code points after each are its digits one to nine. *)
Definition decimal_zeros : list Z :=
  [0x660; 0x6F0; 0x7C0; 0x966; 0x9E6; 0xA66;
    0xAE6; 0xB66; 0xBE6; 0xC66; 0xCE6; 0xD66;
    0xDE6; 0xE50; 0xED0; 0xF20; 0x1040; 0x1090;
    0x17E0; 0x1810; 0x1946; 0x19D0; 0x1A80; 0x1A90;
    0x1B50; 0x1BB0; 0x1C40; 0x1C50; 0xA620; 0xA8D0;
    0xA900; 0xA9D0; 0xA9F0; 0xAA50; 0xABF0; 0xFF10;
    0x104A0; 0x10D30; 0x11066; 0x110F0; 0x11136; 0x111D0;
    0x112F0; 0x11450; 0x114D0; 0x11650; 0x116C0; 0x11730;
    0x118E0; 0x11950; 0x11C50; 0x11D50; 0x11DA0; 0x16A60;
    0x16AC0; 0x16B50; 0x1D7CE; 0x1D7D8; 0x1D7E2; 0x1D7EC;
    0x1D7F6; 0x1E140; 0x1E2F0; 0x1E950; 0x1FBF0].

(** CPython, [_PyUnicode_ToDecimalDigit], from U+0080 on. *)
Definition unicode_to_decimal (ch : Z) : option Z :=
  (λ zero, ch - zero)
    <$> List.find (λ zero, ((zero <=? ch) && (ch <? zero + 10))%Z) decimal_zeros.

Definition ascii_of_code (ch : Z) : ascii := ascii_of_N (Z.to_N ch).

(** CPython, [_PyUnicode_TransformDecimalAndSpaceToASCII], for a [str]
    that is not ASCII: a code point below 127 is kept, white space
    becomes a blank and a decimal digit the ASCII digit of its value; the
    first code point that is none of these becomes a question mark and
    ends the string. *)
Fixpoint transform_decimal_and_space_to_ascii (cps : list Z) : string :=
  match cps with
  | [] => EmptyString
  | ch :: rest =>
      if (ch <? 127)%Z then
        String (ascii_of_code ch) (transform_decimal_and_space_to_ascii rest)
      else if unicode_is_whitespace ch then
        String " " (transform_decimal_and_space_to_ascii rest)
      else
        match unicode_to_decimal ch with
        | Some d =>
            String (ascii_of_code (48 + d)) (transform_decimal_and_space_to_ascii rest)
        | None => "?"
        end
  end.

(** CPython, [PyLong_FromString] in base 10, on a string of ASCII
    characters: surrounding white space (tab to carriage return, and the
    blank) is dropped, one sign is allowed, then decimal digits, single
    underscores being allowed between two digits. *)
Definition is_space (c : ascii) : bool :=
  let n := nat_of_ascii c in
  ((9 <=? n) && (n <=? 13) || (n =? 32))%nat.

Definition digit_value (c : ascii) : option Z :=
  let n := nat_of_ascii c in
  if ((48 <=? n) && (n <=? 57))%nat then Some (Z.of_nat n - 48) else None.

Fixpoint lstrip (s : string) : string :=
  match s with
  | String c s' => if is_space c then lstrip s' else s
  | EmptyString => EmptyString
  end.

Fixpoint rstrip (s : string) : string :=
  match s with
  | String c s' =>
      match rstrip s' with
      | EmptyString => if is_space c then EmptyString else String c EmptyString
      | r => String c r
      end
  | EmptyString => EmptyString
  end.

Definition strip (s : string) : string := rstrip (lstrip s).

(** [after_digit] tells whether the previous character was a digit: an
    underscore, and the end of the string, are accepted only then. *)
Fixpoint digits (acc : Z) (after_digit : bool) (s : string) : option Z :=
  match s with
  | EmptyString => if after_digit then Some acc else None
  | String c s' =>
      match digit_value c with
      | Some d => digits (10 * acc + d) true s'
      | None =>
          if decide (c = "_"%char) then
            if after_digit then digits acc false s' else None
          else None
      end
  end.

Definition long_from_string (s : string) : option Z :=
  match strip s with
  | String "+" r => digits 0 false r
  | String "-" r => Z.opp <$> digits 0 false r
  | t => digits 0 false t
  end.

(** [int(s)] for a [str] (CPython, [PyLong_FromUnicodeObject]): an ASCII
    string is parsed as it is, any other after the transformation above.
    [None] is [ValueError].  The interpreter's limit on the number of
    digits it converts is, as for [str(k)], not modelled. *)
Definition py_int (s : string) : option Z :=
  if all_chars is_ascii s then long_from_string s
  else
    cps ← code_points s;
    long_from_string (transform_decimal_and_space_to_ascii cps).

(** [json.load(f)] *)
Definition json_load (t : file_text) : result pyval :=
  match t with
  | Undecodable e => Raise e
  | Decodes v => Ok v
  end.

(** [v.items()] *)
Definition items (v : pyval) : result (list (string * pyval)) :=
  match v with
  | PDict d => Ok d
  | _ => Raise AttributeError
  end.

(** [{int(k): v for k, v in ...}]: the items are visited in order and a
    later item replaces an earlier one with the same integer key. *)
Fixpoint int_keys (kvs : list (string * pyval)) (acc : gmap Z pyval)
  : result (gmap Z pyval) :=
  match kvs with
  | [] => Ok acc
  | (k, v) :: rest =>
      match py_int k with
      | Some n => int_keys rest (<[n := v]> acc)
      | None => Raise ValueError
      end
  end.

(** [open(STATS_FILE, 'r')] and reading it. *)
Definition open_read : M file_text :=
  λ w, if io_fault w then (Raise OSError, w)
       else match stats_file w with
            | Some t => (Ok t, w)
            | None => (Raise OSError, w)
            end.

(** [open(STATS_FILE, 'w')] creates the file or truncates it: the file
    is empty, which is not JSON. *)
Definition open_write : M unit :=
  λ w, if io_fault w then (Raise OSError, w)
       else (Ok tt, with_stats_file (Some (Undecodable JSONDecodeError)) w).

(** [json.dump(v, f, indent=4)] and closing the file: the file now holds
    a text that decodes to [v]. *)
Definition json_dump (v : pyval) : M unit :=
  modify (with_stats_file (Some (Decodes v))).

(** bot.py, [load_stats].  Between its two assignments the global holds
    the decoded value with string keys; no other code runs in between, so
    that value is local here. *)
Definition load_stats : M unit :=
  let! present := gets (λ w, negb (is_none (stats_file w))) in
  if present : bool then
    try_except
      (let! f := open_read in
       let! decoded := lift (json_load f) in
       let! kvs := lift (items decoded) in
       let! stats := lift (int_keys kvs ∅) in
       modify (with_user_stats stats) >>
       print LoadedStats)
      (λ e, match e with
            | JSONDecodeError =>
                print ErrorReading >> modify (with_user_stats ∅)
            | _ =>
                print (UnexpectedLoadError e) >> modify (with_user_stats ∅)
            end)
  else
    print StatsFileNotFound >> modify (with_user_stats ∅).

(** [{str(k): v for k, v in user_stats.items()}] *)
Definition stats_to_save (us : gmap Z pyval) : pyval :=
  PDict ((λ kv, (py_str kv.1, kv.2)) <$> map_to_list us).

(** bot.py, [save_stats]. *)
Definition save_stats : M unit :=
  try_except
    (open_write >>
     let! us := gets user_stats in
     json_dump (stats_to_save us))
    (λ e, print (ErrorSaving e)).

(** ** Reading the committed value without running the program *)

(** The value [get_user_stat user_id stat_name] returns on [us], or the
    exception it raises: an absent record reads as the all-zero record. *)
Definition committed (us : gmap Z pyval) (user_id : Z) (stat_name : string)
  : result pyval :=
  record_get (default zero_record (us !! user_id)) stat_name (PNum 0).

(** [user_stats] after the lazy initialisation of [user_id]. *)
Definition materialize (user_id : Z) (us : gmap Z pyval) : gmap Z pyval :=
  match us !! user_id with
  | Some _ => us
  | None => <[user_id := zero_record]> us
  end.

(** The value [get_user_stat] returns in world [w]. *)
Definition stat_of (w : world) (user_id : Z) (stat_name : string) : result pyval :=
  (get_user_stat user_id stat_name (PNum 0) w).1.

(** A call-kind Closed-to-Open transition: no channel before, a channel
    after. *)
Definition closed_to_open (before after : VoiceState) : bool :=
  is_none (channel before) && negb (is_none (channel after)).

(** A call-kind Open-to-Closed transition. *)
Definition open_to_closed (before after : VoiceState) : bool :=
  negb (is_none (channel before)) && is_none (channel after).

(** How many events of [es] are Closed-to-Open transitions of [u]. *)
Definition join_transitions (u : Z) (es : list event) : nat :=
  length (filter (λ e, member_id (ev_member e) = u
                       ∧ closed_to_open (ev_before e) (ev_after e)) es).

(** The three slash commands. *)
Inductive command := Calltime | Streamtime | Joincount.

Definition run_command (c : command) : Member → M reply :=
  match c with
  | Calltime => calltime
  | Streamtime => streamtime
  | Joincount => joincount
  end.

Definition is_digit (c : ascii) : bool :=
  match digit_value c with Some _ => true | None => false end.

(** The two kinds of session, and what belongs to each. *)
Inductive session_kind := CallSession | StreamSession.

Definition open_sessions (k : session_kind) (w : world) : gmap Z Q :=
  match k with
  | CallSession => voice_join_times w
  | StreamSession => stream_start_times w
  end.

Definition duration_stat (k : session_kind) : string :=
  match k with
  | CallSession => "call_time"
  | StreamSession => "stream_time"
  end.

Definition duration_total (k : session_kind) : Member → M pyval :=
  match k with
  | CallSession => calltime_total
  | StreamSession => streamtime_total
  end.

(** How many entries of an open-session dictionary belong to [u]. *)
Definition entries_of (u : Z) (m : gmap Z Q) : nat :=
  length (filter (λ kv, kv.1 = u) (map_to_list m)).

(** A session of kind [k] that is closed for [u] stays closed. *)
Definition still_closed (k : session_kind) (u : Z) : relation world :=
  λ w w', open_sessions k w !! u = None → open_sessions k w' !! u = None.

(** ** Sample data *)

Definition alice : Member := {| member_id := 7; display_name := "alice" |}.
Definition general : option VoiceChannel := Some {| name := "general" |}.
Definition in_call (streaming : bool) : VoiceState :=
  {| channel := general; self_stream := streaming |}.
Definition away (streaming : bool) : VoiceState :=
  {| channel := None; self_stream := streaming |}.

(** A wall clock that is set back after its third reading. *)
Definition set_back_clock (n : nat) : Q :=
  match n with 0%nat => 0 | 1%nat => 100 | 2%nat => 110 | _ => 50 end.

(** A clock that advances by one second per reading. *)
Definition steady_clock (n : nat) : Q := inject_Z (Z.of_nat n).

(** Alice has joined: one event after the module was loaded. *)
Definition alice_joined (clk : nat → Q) : world :=
  dispatch (Event alice (away false) (in_call false)) (initial_world clk None false).

(** Alice has joined and then started streaming. *)
Definition alice_streaming (clk : nat → Q) : world :=
  dispatch (Event alice (in_call false) (in_call true)) (alice_joined clk).

(** Alice was in a call from 0 to 100 and joined again at 110; the next
    clock reading of [set_back_clock] is 50. *)
Definition alice_rejoined : world :=
  run_events [Event alice (away false) (in_call false);
              Event alice (in_call false) (away false);
              Event alice (away false) (in_call false)]
             (initial_world set_back_clock None false).

(** A world whose stored record for Alice has no [join_count] field. *)
Definition partial_record_world : world :=
  World {[ 7 := PDict [("call_time", PNum 12)] ]} ∅ ∅ steady_clock 0 None false [].

(** A world whose stats file has a key that is not an integer. *)
Definition bad_key_world : world :=
  World ∅ ∅ ∅ steady_clock 0
        (Some (Decodes (PDict [("7", zero_record); ("seven", zero_record)])))
        false [].

(** The no-break space U+00A0 as a [str]. *)
Definition no_break_space : string :=
  String (ascii_of_nat 194) (String (ascii_of_nat 160) EmptyString).

(** A world whose stats file has the key seven in Arabic-Indic digits and
    the key 8 after a no-break space. *)
Definition unicode_key_world : world :=
  World ∅ ∅ ∅ steady_clock 0
        (Some (Decodes (PDict [("٧", zero_record);
                               (no_break_space +:+ "8", PDict [])])))
        false [].

(** A world whose stats file [json.load] fails on with [e]. *)
Definition undecodable_world (e : exn) : world :=
  World ∅ ∅ ∅ steady_clock 0 (Some (Undecodable e)) false [].

(** [us'] differs from [us] at most in the statistics [fs] of [u], as far
    as [get_user_stat] can tell. *)
Definition frame (u : Z) (fs : list string) (us us' : gmap Z pyval) : Prop :=
  ∀ u' g, u' ≠ u ∨ g ∉ fs → committed us' u' g = committed us u' g.

(** [m] relates every world to the world it leaves, whether it returns
    or raises. *)
Definition keeps {A} (R : relation world) (m : M A) : Prop :=
  ∀ w, R w (m w).2.

Definition stats_frame (u : Z) (fs : list string) : relation world :=
  λ w w', frame u fs (user_stats w) (user_stats w').
Definition same_voice_join_times : relation world :=
  λ w w', voice_join_times w' = voice_join_times w.
Definition same_stream_start_times : relation world :=
  λ w w', stream_start_times w' = stream_start_times w.
Definition same_user_stats : relation world :=
  λ w w', user_stats w' = user_stats w.

Arguments increment_user_stat : simpl never.
Arguments bind : simpl never.


(** ** Further notions used in the properties *)

(** The sessions of [u] are the same in both worlds. *)
Definition same_sessions_of (u : Z) : relation world :=
  λ w w', voice_join_times w' !! u = voice_join_times w !! u
          ∧ stream_start_times w' !! u = stream_start_times w !! u.

(** Nothing outside the three dictionaries, the clock position and the
    output has changed. *)
Definition same_environment : relation world :=
  λ w w', clock w' = clock w ∧ stats_file w' = stats_file w
          ∧ io_fault w' = io_fault w.

(** No record has been removed from [user_stats]. *)
Definition keeps_records : relation world :=
  λ w w', ∀ u, is_Some (user_stats w !! u) → is_Some (user_stats w' !! u).

(** A record is a dictionary all of whose values are numbers in [P]. *)
Definition numeric_record (P : Q → Prop) (r : pyval) : Prop :=
  ∃ d, r = PDict d ∧ ∀ f x, dict_get f d = Some x → ∃ q, x = PNum q ∧ P q.

Definition numeric_store (P : Q → Prop) (us : gmap Z pyval) : Prop :=
  ∀ u r, us !! u = Some r → numeric_record P r.

(** Every clock reading still to come differs from every recorded start
    instant by an amount in [D]. *)
Definition sessions_within (D : Q → Prop) (w : world) : Prop :=
  ∀ k u t, open_sessions k w !! u = Some t →
    ∀ j, (ticks w ≤ j)%nat → D (clock w j - t)%Q.

(** A later reading differs from an earlier one by an amount in [D]. *)
Definition clock_within (D : Q → Prop) (clk : nat → Q) : Prop :=
  ∀ i j, (i ≤ j)%nat → D (clk j - clk i)%Q.

Definition tracker_inv (P D : Q → Prop) (w : world) : Prop :=
  numeric_store P (user_stats w) ∧ sessions_within D w
  ∧ clock_within D (clock w).

(** [m] started in a world satisfying [I] returns and re-establishes [I]. *)
Definition safe (I : world → Prop) {A} (m : M A) : Prop :=
  ∀ w, I w → ∃ a w', m w = (Ok a, w') ∧ I w'.

(** The one combination of snapshots on which the handler reads the name
    of a channel that is not there. *)
Definition starts_streaming_nowhere (before after : VoiceState) : bool :=
  negb (self_stream before) && self_stream after && is_none (channel after).

(** A clock that never goes back. *)
Definition monotone (clk : nat → Q) : Prop :=
  ∀ i j, (i ≤ j)%nat → (clk i <= clk j)%Q.

(** ** More sample data *)

Definition bob : Member := {| member_id := 8; display_name := "bob" |}.

(** A world whose stored value for Alice is not a dictionary, and one
    whose [call_time] is a string. *)
Definition list_record_world : world :=
  World {[ 7 := PList [] ]} ∅ ∅ steady_clock 0 None false [].
Definition string_field_world : world :=
  World {[ 7 := PDict [("call_time", PStr "long")] ]} ∅ ∅ steady_clock 0 None false [].

(** A stats file in which two keys denote the same integer. *)
Definition colliding_keys : list (string * pyval) :=
  [("7", PDict [("join_count", PNum 1)]);
   ("8", zero_record);
   ("07", PDict [("join_count", PNum 2)])].
Definition colliding_keys_world : world :=
  World ∅ ∅ ∅ steady_clock 0 (Some (Decodes (PDict colliding_keys))) false [].
(** * Properties *)

(** ** Dictionaries *)

Lemma dict_get_set_eq k v d : dict_get k (dict_set k v d) = Some v.
Proof.
  induction d as [|[k' v'] d IH]; cbn.
  - by rewrite decide_True.
  - destruct (decide (k' = k)) as [->|Hne]; cbn.
    + by rewrite decide_True.
    + by rewrite decide_False.
Qed.

Lemma dict_get_set_ne k k' v d :
  k ≠ k' → dict_get k' (dict_set k v d) = dict_get k' d.
Proof.
  intros Hne. induction d as [|[k0 v0] d IH]; cbn.
  - by rewrite decide_False.
  - destruct (decide (k0 = k)) as [->|Hk]; cbn.
    + by rewrite !decide_False.
    + by rewrite IH.
Qed.

Lemma record_get_zero_record f : record_get zero_record f (PNum 0) = Ok (PNum 0).
Proof. unfold zero_record; cbn. by repeat case_decide. Qed.

Lemma committed_absent us u f : us !! u = None → committed us u f = Ok (PNum 0).
Proof. intros E. unfold committed. rewrite E. apply record_get_zero_record. Qed.

Lemma committed_materialize us u u' f :
  committed (materialize u us) u' f = committed us u' f.
Proof.
  unfold materialize, committed. destruct (us !! u) eqn:E; [done|].
  destruct (decide (u = u')) as [<-|Hne].
  - by rewrite lookup_insert_eq, E.
  - by rewrite lookup_insert_ne.
Qed.

(** ** The helper functions *)

Lemma get_user_stat_run u f w :
  get_user_stat u f (PNum 0) w
  = (committed (user_stats w) u f,
     with_user_stats (materialize u (user_stats w)) w).
Proof.
  destruct w as [us vj ss clk t fl io out].
  unfold get_user_stat, committed, materialize, bind, lift, init_if_absent,
    user_record; cbn.
  destruct (us !! u) as [r|] eqn:E; cbn.
  - by rewrite E.
  - by rewrite lookup_insert_eq.
Qed.

(** What [increment_user_stat] does: only the one field of the one user
    is touched, and a numeric committed value is replaced by the sum. *)
Lemma increment_user_stat_run u f v w :
  ∃ r us',
    increment_user_stat u f v w = (r, with_user_stats us' w) ∧
    frame u [f] (user_stats w) us' ∧
    (∀ cur a, committed (user_stats w) u f = Ok cur → as_number cur = Some a →
       r = Ok tt ∧ committed us' u f = Ok (PNum (a + v)%Q)).
Proof.
  unfold increment_user_stat.
  unfold bind at 1. rewrite get_user_stat_run.
  destruct (committed (user_stats w) u f) as [cur|e] eqn:Hc; cbn.
  2:{ exists (Raise e), (materialize u (user_stats w)). split; [done|].
      split; [intros ? ? _; apply committed_materialize|congruence]. }
  unfold committed in Hc.
  assert (∃ d, materialize u (user_stats w) !! u = Some (PDict d) ∧
               default zero_record (user_stats w !! u) = PDict d) as (d & Hm & Hd).
  { unfold materialize. destruct (user_stats w !! u) as [r|] eqn:E; cbn in *.
    - destruct r; try discriminate. eauto.
    - rewrite lookup_insert_eq. eauto. }
  rewrite Hd in Hc. cbn in Hc.
  unfold bind, init_if_absent, lift, user_record, modify, py_add; cbn.
  rewrite Hm. destruct (as_number cur) as [a|] eqn:Ha; cbn.
  2:{ exists (Raise TypeError), (materialize u (user_stats w)). split; [done|].
      split; [intros ? ? _; apply committed_materialize|congruence]. }
  rewrite Hm; cbn.
  eexists (Ok tt), _. split; [reflexivity|]. split.
  - intros u' g Hne. unfold committed at 1.
    destruct (decide (u' = u)) as [->|Hu].
    + rewrite lookup_insert_eq; cbn. destruct Hne as [?|Hg]; [done|].
      rewrite dict_get_set_ne by set_solver. unfold committed. by rewrite Hd.
    + rewrite lookup_insert_ne by done. apply committed_materialize.
  - intros cur' a' ? ?; simplify_eq. split; [done|].
    unfold committed. rewrite lookup_insert_eq; cbn. by rewrite dict_get_set_eq.
Qed.

(** ** Frames *)

Lemma frame_refl u fs us : frame u fs us us.
Proof. by intros u' g _. Qed.

Lemma frame_trans u fs us1 us2 us3 :
  frame u fs us1 us2 → frame u fs us2 us3 → frame u fs us1 us3.
Proof. intros H12 H23 u' g Hne. by rewrite H23, H12. Qed.

Lemma frame_mono u fs fs' us us' :
  fs ⊆ fs' → frame u fs us us' → frame u fs' us us'.
Proof. intros Hsub H u' g [?|Hg]; apply H; [by left|right; set_solver]. Qed.

Lemma bind_snd {A B} (m : M A) (k : A → M B) w :
  (bind m k w).2 = match m w with
                   | (Ok a, w1) => (k a w1).2
                   | (Raise _, w1) => w1
                   end.
Proof. unfold bind. by destruct (m w) as [[a|e] w1]. Qed.

(** ** Closing a session *)

Ltac credit_absent H :=
  let w := fresh "w" in
  intros w H; destruct w; cbn in *;
  unfold credit_call_time, credit_stream_time_on_leave, credit_stream_time,
    bind, gets, contains; cbn; by rewrite H.

Ltac credit_present u f H :=
  let w := fresh "w" in
  let r := fresh "r" in
  let us' := fresh "us'" in
  let Hfr := fresh "Hfr" in
  let Hok := fresh "Hok" in
  intros w H; destruct w; cbn in *;
  unfold bind, gets, contains, pop_voice_join_time, pop_stream_start_time,
    pop_time, time_time; cbn; repeat (rewrite H; cbn);
  match goal with
  | |- context [increment_user_stat u f ?v ?w1] =>
      destruct (increment_user_stat_run u f v w1) as (r & us' & -> & Hfr & Hok)
  end; cbn in *;
  exists r, us'; destruct r as [[]|?]; cbn;
  (eexists; split; [reflexivity|]; split; [exact Hfr|exact Hok]).

Lemma credit_call_time_absent m :
  ∀ w, voice_join_times w !! member_id m = None → credit_call_time m w = (Ok tt, w).
Proof. credit_absent H. Qed.

Lemma credit_call_time_present m start :
  ∀ w, voice_join_times w !! member_id m = Some start →
  ∃ r us' out',
    credit_call_time m w
    = (r, World us' (delete (member_id m) (voice_join_times w))
            (stream_start_times w) (clock w) (S (ticks w))
            (stats_file w) (io_fault w) out') ∧
    frame (member_id m) ["call_time"] (user_stats w) us' ∧
    (∀ cur a, committed (user_stats w) (member_id m) "call_time" = Ok cur →
       as_number cur = Some a →
       r = Ok tt ∧
       committed us' (member_id m) "call_time"
       = Ok (PNum (a + (clock w (ticks w) - start))%Q)).
Proof. unfold credit_call_time. credit_present (member_id m) "call_time" H. Qed.

Lemma credit_stream_time_on_leave_absent m :
  ∀ w, stream_start_times w !! member_id m = None →
  credit_stream_time_on_leave m w = (Ok tt, w).
Proof. credit_absent H. Qed.

Lemma credit_stream_time_on_leave_present m start :
  ∀ w, stream_start_times w !! member_id m = Some start →
  ∃ r us' out',
    credit_stream_time_on_leave m w
    = (r, World us' (voice_join_times w)
            (delete (member_id m) (stream_start_times w)) (clock w) (S (ticks w))
            (stats_file w) (io_fault w) out') ∧
    frame (member_id m) ["stream_time"] (user_stats w) us' ∧
    (∀ cur a, committed (user_stats w) (member_id m) "stream_time" = Ok cur →
       as_number cur = Some a →
       r = Ok tt ∧
       committed us' (member_id m) "stream_time"
       = Ok (PNum (a + (clock w (ticks w) - start))%Q)).
Proof.
  unfold credit_stream_time_on_leave.
  credit_present (member_id m) "stream_time" H.
Qed.

Lemma credit_stream_time_absent m :
  ∀ w, stream_start_times w !! member_id m = None →
  credit_stream_time m w = (Ok tt, w).
Proof. credit_absent H. Qed.

Lemma credit_stream_time_present m start :
  ∀ w, stream_start_times w !! member_id m = Some start →
  ∃ r us' out',
    credit_stream_time m w
    = (r, World us' (voice_join_times w)
            (delete (member_id m) (stream_start_times w)) (clock w) (S (ticks w))
            (stats_file w) (io_fault w) out') ∧
    frame (member_id m) ["stream_time"] (user_stats w) us' ∧
    (∀ cur a, committed (user_stats w) (member_id m) "stream_time" = Ok cur →
       as_number cur = Some a →
       r = Ok tt ∧
       committed us' (member_id m) "stream_time"
       = Ok (PNum (a + (clock w (ticks w) - start))%Q)).
Proof.
  unfold credit_stream_time.
  credit_present (member_id m) "stream_time" H.
Qed.

(** ** What a computation leaves alone *)

Global Instance stats_frame_preorder u fs : PreOrder (stats_frame u fs).
Proof.
  split.
  - intros w. apply frame_refl.
  - intros w1 w2 w3. apply frame_trans.
Qed.

Global Instance same_voice_join_times_preorder : PreOrder same_voice_join_times.
Proof. split; unfold same_voice_join_times; [done|intros ???; congruence]. Qed.

Global Instance same_stream_start_times_preorder : PreOrder same_stream_start_times.
Proof. split; unfold same_stream_start_times; [done|intros ???; congruence]. Qed.

Global Instance same_user_stats_preorder : PreOrder same_user_stats.
Proof. split; unfold same_user_stats; [done|intros ???; congruence]. Qed.

Section keeps.
Context {R : relation world} `{!PreOrder R}.

Lemma keeps_bind {A B} (m : M A) (k : A → M B) :
  keeps R m → (∀ a, keeps R (k a)) → keeps R (bind m k).
Proof.
  intros Hm Hk w. rewrite bind_snd. specialize (Hm w).
  destruct (m w) as [[a|e] w1]; cbn in *; [|done].
  etrans; [exact Hm|apply Hk].
Qed.

Lemma keeps_ret {A} (a : A) : keeps R (ret a).
Proof. intros w. reflexivity. Qed.

Lemma keeps_lift {A} (r : result A) : keeps R (lift r).
Proof. intros w. reflexivity. Qed.

Lemma keeps_gets {A} (f : world → A) : keeps R (gets f).
Proof. intros w. reflexivity. Qed.

Lemma keeps_channel_name c : keeps R (channel_name c).
Proof. destruct c; intros w; reflexivity. Qed.

Lemma keeps_if {A} (b : bool) (m1 m2 : M A) :
  keeps R m1 → keeps R m2 → keeps R (if b then m1 else m2).
Proof. by destruct b. Qed.
End keeps.

Create HintDb keeps.

Ltac keeps_step :=
  lazymatch goal with
  | |- keeps _ (bind _ _) => apply keeps_bind; [|intros ?]
  | |- keeps _ (if _ then _ else _) => apply keeps_if
  | |- keeps _ (ret _) => apply keeps_ret
  | |- keeps _ (lift _) => apply keeps_lift
  | |- keeps _ (gets _) => apply keeps_gets
  | |- keeps _ (channel_name _) => apply keeps_channel_name
  | |- keeps _ _ => solve [eauto with keeps]
  end.
Ltac keeps_auto := repeat keeps_step.

Lemma print_stats_frame u fs l : keeps (stats_frame u fs) (print l).
Proof. intros w. apply frame_refl. Qed.
Lemma print_same_voice_join_times l : keeps same_voice_join_times (print l).
Proof. by intros w. Qed.
Lemma print_same_stream_start_times l : keeps same_stream_start_times (print l).
Proof. by intros w. Qed.
Lemma print_same_user_stats l : keeps same_user_stats (print l).
Proof. by intros w. Qed.

Lemma time_time_stats_frame u fs : keeps (stats_frame u fs) time_time.
Proof. intros w. apply frame_refl. Qed.
Lemma time_time_same_voice_join_times : keeps same_voice_join_times time_time.
Proof. by intros w. Qed.
Lemma time_time_same_stream_start_times : keeps same_stream_start_times time_time.
Proof. by intros w. Qed.
Lemma time_time_same_user_stats : keeps same_user_stats time_time.
Proof. by intros w. Qed.

Lemma pop_voice_join_time_stats_frame u fs v :
  keeps (stats_frame u fs) (pop_voice_join_time v).
Proof.
  intros w. unfold pop_voice_join_time, pop_time.
  destruct (voice_join_times w !! v); apply frame_refl.
Qed.
Lemma pop_voice_join_time_same_stream_start_times v :
  keeps same_stream_start_times (pop_voice_join_time v).
Proof.
  intros w. unfold pop_voice_join_time, pop_time.
  by destruct (voice_join_times w !! v).
Qed.

Lemma pop_stream_start_time_stats_frame u fs v :
  keeps (stats_frame u fs) (pop_stream_start_time v).
Proof.
  intros w. unfold pop_stream_start_time, pop_time.
  destruct (stream_start_times w !! v); apply frame_refl.
Qed.
Lemma pop_stream_start_time_same_voice_join_times v :
  keeps same_voice_join_times (pop_stream_start_time v).
Proof.
  intros w. unfold pop_stream_start_time, pop_time.
  by destruct (stream_start_times w !! v).
Qed.

Lemma set_voice_join_time_stats_frame u fs (f : world → gmap Z Q) :
  keeps (stats_frame u fs) (modify (λ w, with_voice_join_times (f w) w)).
Proof. intros w. apply frame_refl. Qed.
Lemma set_voice_join_time_same_stream_start_times (f : world → gmap Z Q) :
  keeps same_stream_start_times (modify (λ w, with_voice_join_times (f w) w)).
Proof. by intros w. Qed.

Lemma set_stream_start_time_stats_frame u fs (f : world → gmap Z Q) :
  keeps (stats_frame u fs) (modify (λ w, with_stream_start_times (f w) w)).
Proof. intros w. apply frame_refl. Qed.
Lemma set_stream_start_time_same_voice_join_times (f : world → gmap Z Q) :
  keeps same_voice_join_times (modify (λ w, with_stream_start_times (f w) w)).
Proof. by intros w. Qed.
Lemma set_stream_start_time_same_user_stats (f : world → gmap Z Q) :
  keeps same_user_stats (modify (λ w, with_stream_start_times (f w) w)).
Proof. by intros w. Qed.

Lemma increment_user_stat_stats_frame u f v fs :
  f ∈ fs → keeps (stats_frame u fs) (increment_user_stat u f v).
Proof.
  intros Hin w.
  destruct (increment_user_stat_run u f v w) as (r & us' & Heq & Hfr & _).
  rewrite Heq. destruct w; cbn. eapply frame_mono; [|exact Hfr].
  by intros x ->%list_elem_of_singleton.
Qed.
Lemma increment_user_stat_same_voice_join_times u f v :
  keeps same_voice_join_times (increment_user_stat u f v).
Proof.
  intros w.
  destruct (increment_user_stat_run u f v w) as (r & us' & Heq & _).
  rewrite Heq. by destruct w.
Qed.
Lemma increment_user_stat_same_stream_start_times u f v :
  keeps same_stream_start_times (increment_user_stat u f v).
Proof.
  intros w.
  destruct (increment_user_stat_run u f v w) as (r & us' & Heq & _).
  rewrite Heq. by destruct w.
Qed.

#[global] Hint Resolve
  print_stats_frame print_same_voice_join_times print_same_stream_start_times
  print_same_user_stats
  time_time_stats_frame time_time_same_voice_join_times
  time_time_same_stream_start_times time_time_same_user_stats
  pop_voice_join_time_stats_frame pop_voice_join_time_same_stream_start_times
  pop_stream_start_time_stats_frame pop_stream_start_time_same_voice_join_times
  set_voice_join_time_stats_frame set_voice_join_time_same_stream_start_times
  set_stream_start_time_stats_frame set_stream_start_time_same_voice_join_times
  set_stream_start_time_same_user_stats
  increment_user_stat_same_voice_join_times
  increment_user_stat_same_stream_start_times : keeps.

#[global] Hint Extern 1 (keeps (stats_frame _ _) (increment_user_stat _ _ _)) =>
  apply increment_user_stat_stats_frame; set_solver : keeps.

(** The streaming half of the handler never touches the call sessions,
    and of the statistics only [stream_time] of the member. *)
Lemma streaming_tracking_same_voice_join_times m b a :
  keeps same_voice_join_times (streaming_tracking m b a).
Proof. unfold streaming_tracking, credit_stream_time. keeps_auto. Qed.

Lemma streaming_tracking_stats_frame m b a :
  keeps (stats_frame (member_id m) ["stream_time"]) (streaming_tracking m b a).
Proof. unfold streaming_tracking, credit_stream_time. keeps_auto. Qed.

(** The join/leave half touches [stream_start_times] only when the member
    leaves, and of the statistics only those of the member. *)
Lemma join_leave_tracking_stats_frame m b a :
  keeps (stats_frame (member_id m) ["join_count"; "call_time"; "stream_time"])
        (join_leave_tracking m b a).
Proof.
  unfold join_leave_tracking, credit_call_time, credit_stream_time_on_leave.
  keeps_auto.
Qed.

Lemma stat_of_committed w u f : stat_of w u f = committed (user_stats w) u f.
Proof. unfold stat_of. by rewrite get_user_stat_run. Qed.

(** ** Joining *)

Lemma join_leave_tracking_not_join m b a :
  closed_to_open b a = false →
  keeps (stats_frame (member_id m) ["call_time"; "stream_time"])
        (join_leave_tracking m b a).
Proof.
  unfold closed_to_open, join_leave_tracking. intros ->.
  unfold credit_call_time, credit_stream_time_on_leave. keeps_auto.
Qed.

Lemma Qplus_inject_Z_1 k : (inject_Z k + 1)%Q = inject_Z (k + 1).
Proof. unfold Qplus, inject_Z; cbn. by rewrite Z.mul_1_r. Qed.

Lemma join_leave_tracking_join m b a w c :
  closed_to_open b a = true →
  committed (user_stats w) (member_id m) "join_count" = Ok (PNum c) →
  committed (user_stats (join_leave_tracking m b a w).2) (member_id m) "join_count"
  = Ok (PNum (c + 1)).
Proof.
  unfold closed_to_open, join_leave_tracking. intros Hj Hc. rewrite Hj.
  destruct (channel b), (channel a) as [ch|]; try discriminate.
  destruct w as [us vj ss clk t fl io out]; cbn in *.
  unfold bind; cbn.
  match goal with
  | |- context [increment_user_stat ?u ?f ?v ?w1] =>
      destruct (increment_user_stat_run u f v w1) as (r & us' & Heq & _ & Hok)
  end; rewrite Heq; cbn in *.
  by destruct (Hok _ _ Hc eq_refl) as [_ ->].
Qed.

(** One event changes a user's join count exactly when it is a
    Closed-to-Open transition of that user. *)
Lemma dispatch_join_count e w u k :
  committed (user_stats w) u "join_count" = Ok (PNum (inject_Z k)) →
  committed (user_stats (dispatch e w)) u "join_count"
  = Ok (PNum (inject_Z
      (if decide (member_id (ev_member e) = u
                  ∧ closed_to_open (ev_before e) (ev_after e))
       then k + 1 else k))).
Proof.
  intros Hk. destruct e as [m b a]; cbn.
  assert (committed (user_stats (join_leave_tracking m b a w).2) u "join_count"
          = Ok (PNum (inject_Z
              (if decide (member_id m = u ∧ closed_to_open b a)
               then k + 1 else k)))) as Hjl.
  { destruct (closed_to_open b a) eqn:Hj.
    - destruct (decide (member_id m = u)) as [<-|Hne].
      + rewrite decide_True by done.
        rewrite <- Qplus_inject_Z_1. by apply join_leave_tracking_join.
      + rewrite decide_False by tauto. rewrite <- Hk.
        apply (join_leave_tracking_stats_frame m b a w). by left.
    - rewrite decide_False by (intros [_ []]). rewrite <- Hk.
      apply (join_leave_tracking_not_join m b a Hj w).
      right. rewrite !not_elem_of_cons. repeat split; try done.
      apply not_elem_of_nil. }
  unfold dispatch, on_voice_state_update; cbn. rewrite bind_snd.
  destruct (join_leave_tracking m b a w) as [[[]|ex] w1]; cbn in *; [|done].
  rewrite <- Hjl.
  apply (streaming_tracking_stats_frame m b a w1).
  right. rewrite !not_elem_of_cons. split; [done|apply not_elem_of_nil].
Qed.

Lemma run_events_cons e es w :
  run_events (e :: es) w = run_events es (dispatch e w).
Proof. done. Qed.

Lemma run_events_join_count es : ∀ w u k,
  committed (user_stats w) u "join_count" = Ok (PNum (inject_Z k)) →
  committed (user_stats (run_events es w)) u "join_count"
  = Ok (PNum (inject_Z (k + Z.of_nat (join_transitions u es)))).
Proof.
  induction es as [|e es IH]; intros w u k Hk.
  - cbn. by rewrite Z.add_0_r.
  - rewrite run_events_cons, (IH _ u _ (dispatch_join_count e w u k Hk)).
    unfold join_transitions. rewrite filter_cons.
    case_decide; cbn [length]; do 3 f_equal; lia.
Qed.

(** C5.  Starting from the empty dictionaries, after any sequence of
    voice-state events the join count [get_user_stat] returns for a user
    is the number of that user's events in the sequence whose before
    snapshot shows no channel and whose after snapshot shows one. *)
Theorem join_count_counts_joins clk file fault (es : list event) (u : Z) :
  stat_of (run_events es (initial_world clk file fault)) u "join_count"
  = Ok (PNum (inject_Z (Z.of_nat (join_transitions u es)))).
Proof.
  rewrite stat_of_committed.
  apply (run_events_join_count es (initial_world clk file fault) u 0).
  by apply committed_absent.
Qed.

(** The reply of [joincount] after the same run. *)
Corollary joincount_reply clk file fault (es : list event) (user : Member) :
  (joincount user (run_events es (initial_world clk file fault))).1
  = Ok (JoinedTimes (display_name user)
          (PNum (inject_Z (Z.of_nat (join_transitions (member_id user) es))))).
Proof.
  assert (committed (user_stats (initial_world clk file fault)) (member_id user)
            "join_count" = Ok (PNum (inject_Z 0))) as H0
    by by apply committed_absent.
  pose proof (run_events_join_count es _ _ 0 H0) as Hc.
  unfold joincount, bind. rewrite get_user_stat_run, Hc. reflexivity.
Qed.

(** ** Leaving *)

Lemma credit_stream_time_on_leave_stats_frame m :
  keeps (stats_frame (member_id m) ["stream_time"]) (credit_stream_time_on_leave m).
Proof. unfold credit_stream_time_on_leave. keeps_auto. Qed.

Lemma credit_stream_time_on_leave_same_voice_join_times m :
  keeps same_voice_join_times (credit_stream_time_on_leave m).
Proof. unfold credit_stream_time_on_leave. keeps_auto. Qed.

Lemma not_in_stream_time f : f ≠ "stream_time" → f ∉ ["stream_time"].
Proof. intros Hne. rewrite not_elem_of_cons. split; [done|apply not_elem_of_nil]. Qed.

Lemma open_to_closed_inv b a :
  open_to_closed b a = true → ∃ ch, channel b = Some ch ∧ channel a = None.
Proof.
  unfold open_to_closed. destruct (channel b) as [ch|], (channel a); try done.
  eauto.
Qed.

(** The leave branch, for a member with an open call session: the entry
    is consumed and the elapsed time is added to a numeric [call_time],
    whatever happens to the stream session afterwards. *)
Lemma join_leave_tracking_leave m b a w start cur c :
  open_to_closed b a = true →
  voice_join_times w !! member_id m = Some start →
  committed (user_stats w) (member_id m) "call_time" = Ok cur →
  as_number cur = Some c →
  let w1 := (join_leave_tracking m b a w).2 in
  committed (user_stats w1) (member_id m) "call_time"
  = Ok (PNum (c + (clock w (ticks w) - start))%Q)
  ∧ voice_join_times w1 !! member_id m = None.
Proof.
  intros (ch & Hb & Ha)%open_to_closed_inv Hvj Hcur Hnum.
  unfold join_leave_tracking. rewrite Hb, Ha; cbn.
  rewrite bind_snd; cbn. rewrite bind_snd; cbn. rewrite bind_snd.
  set (w0 := with_stdout _ w).
  destruct (credit_call_time_present m start w0 Hvj)
    as (r & us' & out' & Heq & _ & Hok).
  rewrite Heq. destruct (Hok _ _ Hcur Hnum) as [-> Hc]. clear Hok Heq.
  match goal with |- context [credit_stream_time_on_leave m ?w1] =>
    pose proof (credit_stream_time_on_leave_stats_frame m w1) as Hfr;
    pose proof (credit_stream_time_on_leave_same_voice_join_times m w1) as Hsame
  end.
  unfold stats_frame, same_voice_join_times in *; cbn in *.
  rewrite Hsame, lookup_delete_eq. split; [|done].
  rewrite <- Hc. apply Hfr. right. by apply not_in_stream_time.
Qed.

(** C1, as the code has it.  When a member with an open call session
    leaves the channel, [call_time] grows by exactly the clock reading at
    the close minus the recorded start instant, and the entry is removed.
    No floor is applied: the difference is added as it is. *)
Theorem close_call_session_adds_difference m b a w start cur c :
  open_to_closed b a = true →
  voice_join_times w !! member_id m = Some start →
  stat_of w (member_id m) "call_time" = Ok cur →
  as_number cur = Some c →
  let w' := dispatch (Event m b a) w in
  stat_of w' (member_id m) "call_time"
  = Ok (PNum (c + (clock w (ticks w) - start))%Q)
  ∧ voice_join_times w' !! member_id m = None.
Proof.
  intros Hleave Hvj Hcur Hnum. rewrite stat_of_committed in Hcur.
  destruct (join_leave_tracking_leave m b a w start cur c Hleave Hvj Hcur Hnum)
    as [Hc Hgone].
  cbn. rewrite stat_of_committed.
  unfold dispatch, on_voice_state_update; cbn. rewrite bind_snd.
  pose proof (streaming_tracking_stats_frame m b a) as Hfr.
  pose proof (streaming_tracking_same_voice_join_times m b a) as Hsame.
  destruct (join_leave_tracking m b a w) as [[[]|ex] w1]; cbn in *; [|done].
  rewrite (Hsame w1). split; [|done].
  rewrite <- Hc. apply (Hfr w1). right. by apply not_in_stream_time.
Qed.

Lemma streaming_tracking_no_channel m b a w :
  channel a = None → (streaming_tracking m b a w).2 = w.
Proof.
  unfold streaming_tracking. intros ->.
  destruct (self_stream b), (self_stream a); cbn; try done.
Qed.

(** C6.  A member with an open call session and an open stream session
    leaves the channel: the one event removes both entries, adds to
    [call_time] the first clock reading minus the call start, and adds to
    [stream_time] the next clock reading minus the stream start. *)
Theorem leave_closes_both_sessions
    m b a w call_start stream_start cur_c c cur_s s :
  open_to_closed b a = true →
  voice_join_times w !! member_id m = Some call_start →
  stream_start_times w !! member_id m = Some stream_start →
  stat_of w (member_id m) "call_time" = Ok cur_c → as_number cur_c = Some c →
  stat_of w (member_id m) "stream_time" = Ok cur_s → as_number cur_s = Some s →
  let w' := dispatch (Event m b a) w in
  voice_join_times w' !! member_id m = None
  ∧ stream_start_times w' !! member_id m = None
  ∧ stat_of w' (member_id m) "call_time"
    = Ok (PNum (c + (clock w (ticks w) - call_start))%Q)
  ∧ stat_of w' (member_id m) "stream_time"
    = Ok (PNum (s + (clock w (S (ticks w)) - stream_start))%Q).
Proof.
  intros (ch & Hb & Ha)%open_to_closed_inv Hvj Hss Hc Hnc Hs Hns.
  rewrite stat_of_committed in Hc, Hs.
  cbn. rewrite !stat_of_committed.
  unfold dispatch, on_voice_state_update; cbn. rewrite bind_snd.
  assert (∃ us2 out2,
    join_leave_tracking m b a w
    = (Ok tt, World us2 (delete (member_id m) (voice_join_times w))
                (delete (member_id m) (stream_start_times w))
                (clock w) (S (S (ticks w))) (stats_file w) (io_fault w) out2)
    ∧ committed us2 (member_id m) "call_time"
      = Ok (PNum (c + (clock w (ticks w) - call_start))%Q)
    ∧ committed us2 (member_id m) "stream_time"
      = Ok (PNum (s + (clock w (S (ticks w)) - stream_start))%Q))
    as (us2 & out2 & -> & Hc2 & Hs2).
  { unfold join_leave_tracking. rewrite Hb, Ha; cbn.
    unfold bind at 1; cbn. unfold bind at 1; cbn. unfold bind at 1.
    set (w0 := with_stdout _ w).
    destruct (credit_call_time_present m call_start w0 Hvj)
      as (r1 & us1 & out1 & -> & Hfr1 & Hok1).
    destruct (Hok1 _ _ Hc Hnc) as [-> Hc1]. clear Hok1.
    set (w1 := World us1 _ _ _ _ _ _ _).
    destruct (credit_stream_time_on_leave_present m stream_start w1 Hss)
      as (r2 & us2 & out2 & -> & Hfr2 & Hok2).
    assert (committed us1 (member_id m) "stream_time" = Ok cur_s) as Hs1.
    { rewrite <- Hs. apply Hfr1. right.
      rewrite not_elem_of_cons. split; [done|apply not_elem_of_nil]. }
    destruct (Hok2 _ _ Hs1 Hns) as [-> Hs2]. clear Hok2.
    exists us2, out2. split; [done|]. split; [|exact Hs2].
    etrans; [|exact Hc1]. apply Hfr2. right. by apply not_in_stream_time. }
  cbn. rewrite streaming_tracking_no_channel by done. cbn.
  by rewrite !lookup_delete_eq.
Qed.

(** C3.  The handler raises on an event whose after snapshot has
    [self_stream] set and no channel while the before snapshot does not
    stream: the f-string of the started-streaming branch reads
    [after.channel.name]. *)
Theorem started_streaming_without_channel_raises (m : Member) (w : world) :
  on_voice_state_update m (away false) (away true) w
  = (Raise AttributeError, w).
Proof. reflexivity. Qed.


(** ** Queries *)

Lemma duration_total_run k user w :
  duration_total k user w
  = match committed (user_stats w) (member_id user) (duration_stat k) with
    | Ok total =>
        let w1 := with_user_stats (materialize (member_id user) (user_stats w)) w in
        match open_sessions k w !! member_id user with
        | Some start =>
            (py_add total (clock w (ticks w) - start),
             with_ticks (S (ticks w)) w1)
        | None => (Ok total, w1)
        end
    | Raise e =>
        (Raise e, with_user_stats (materialize (member_id user) (user_stats w)) w)
    end.
Proof.
  destruct k; cbn [duration_total duration_stat open_sessions];
    unfold calltime_total, streamtime_total;
    unfold bind at 1; rewrite get_user_stat_run;
    (destruct (committed _ _ _) as [total|e]; [|done]);
    destruct w as [us vj ss clk t fl io out]; cbn;
    unfold bind, gets, contains, time_time, start_of, lift; cbn.
  - destruct (vj !! member_id user) eqn:E; cbn; by rewrite ?E.
  - destruct (ss !! member_id user) eqn:E; cbn; by rewrite ?E.
Qed.

(** C8, as the code has it.  With a session of the matching kind open
    and a numeric committed value [c], the total a duration query
    computes is [c] plus the clock reading minus the start instant.  It
    is at least [c] when that reading is not before the start instant,
    and a second query right after the first computes no less when the
    clock has not gone back in between. *)
Theorem open_session_total k user w start cur c :
  open_sessions k w !! member_id user = Some start →
  stat_of w (member_id user) (duration_stat k) = Ok cur →
  as_number cur = Some c →
  let now1 := clock w (ticks w) in
  let now2 := clock w (S (ticks w)) in
  ∃ w1 w2,
    duration_total k user w = (Ok (PNum (c + (now1 - start))%Q), w1)
    ∧ duration_total k user w1 = (Ok (PNum (c + (now2 - start))%Q), w2)
    ∧ ((start <= now1)%Q → (c <= c + (now1 - start))%Q)
    ∧ ((now1 <= now2)%Q → (c + (now1 - start) <= c + (now2 - start))%Q).
Proof.
  intros Hopen Hcur Hnum now1 now2. rewrite stat_of_committed in Hcur.
  set (w1 := with_ticks (S (ticks w))
               (with_user_stats (materialize (member_id user) (user_stats w)) w)).
  assert (committed (user_stats w1) (member_id user) (duration_stat k) = Ok cur)
    as Hcur1.
  { rewrite <- Hcur. destruct w; cbn. apply committed_materialize. }
  assert (open_sessions k w1 !! member_id user = Some start) as Hopen1.
  { rewrite <- Hopen. by destruct k, w. }
  exists w1. eexists. split; [|split; [|split]].
  - rewrite duration_total_run, Hcur; cbn. rewrite Hopen.
    unfold py_add. by rewrite Hnum.
  - rewrite duration_total_run, Hcur1; cbn. rewrite Hopen1.
    unfold py_add. rewrite Hnum. destruct w; reflexivity.
  - intros. lra.
  - intros. lra.
Qed.

(** C10.  When the stored record of a user is a dictionary without the
    field asked for, [get_user_stat] returns its default, which is 0
    unless the caller says otherwise, and leaves the world alone, and
    [increment_user_stat] stores [0 + delta] in that field. *)
Theorem missing_field_counts_as_zero w u d f delta :
  user_stats w !! u = Some (PDict d) →
  dict_get f d = None →
  (∀ default, get_user_stat u f default w = (Ok default, w))
  ∧ increment_user_stat u f delta w
    = (Ok tt,
       with_user_stats
         (<[u := PDict (dict_set f (PNum (0 + delta)%Q) d)]> (user_stats w)) w).
Proof.
  intros Hu Hf. destruct w as [us vj ss clk t fl io out]; cbn in *.
  assert (∀ default, get_user_stat u f default (World us vj ss clk t fl io out)
                     = (Ok default, World us vj ss clk t fl io out)) as Hget.
  { intros default.
    unfold get_user_stat, bind, init_if_absent, user_record, lift; cbn.
    rewrite Hu; cbn. by rewrite Hu; cbn; rewrite Hf. }
  split; [exact Hget|].
  unfold increment_user_stat. unfold bind at 1. rewrite Hget.
  unfold bind, init_if_absent, lift, user_record, modify; cbn.
  by rewrite Hu; cbn; rewrite Hu.
Qed.

(** C2, as the code has it.  A query never touches the two open-session
    dictionaries.  In [user_stats] it changes nothing when the user has a
    record, and otherwise adds the all-zero record for that user, which
    is what [materialize] computes. *)
Theorem query_only_materializes (c : command) (user : Member) (w : world) :
  let w' := (run_command c user w).2 in
  voice_join_times w' = voice_join_times w
  ∧ stream_start_times w' = stream_start_times w
  ∧ user_stats w' = materialize (member_id user) (user_stats w).
Proof.
  destruct c; cbn [run_command]; unfold calltime, streamtime, joincount;
    rewrite bind_snd.
  - change calltime_total with (duration_total CallSession).
    rewrite duration_total_run.
    destruct (committed _ _ _) as [total|e]; [|by destruct w].
    cbn. destruct (voice_join_times w !! member_id user) as [start|]; cbn.
    + destruct (py_add _ _); [|by destruct w].
      unfold bind, lift, ret. destruct (format_duration _); by destruct w.
    + unfold bind, lift, ret. destruct (format_duration _); by destruct w.
  - change streamtime_total with (duration_total StreamSession).
    rewrite duration_total_run.
    destruct (committed _ _ _) as [total|e]; [|by destruct w].
    cbn. destruct (stream_start_times w !! member_id user) as [start|]; cbn.
    + destruct (py_add _ _); [|by destruct w].
      unfold bind, lift, ret. destruct (format_duration _); by destruct w.
    + unfold bind, lift, ret. destruct (format_duration _); by destruct w.
  - rewrite get_user_stat_run.
    destruct (committed _ _ _); by destruct w.
Qed.

(** ** Integer keys as strings *)

Lemma digit_value_pretty_N_char d :
  (d < 10)%N → digit_value (pretty_N_char d) = Some (Z.of_N d).
Proof.
  intros Hd.
  assert (d ∈ [0; 1; 2; 3; 4; 5; 6; 7; 8; 9]%N) as Hin.
  { rewrite !elem_of_cons. lia. }
  rewrite !elem_of_cons in Hin.
  destruct Hin as [->|[->|[->|[->|[->|[->|[->|[->|[->|[->|Hin]]]]]]]]]];
    [reflexivity..|by apply not_elem_of_nil in Hin].
Qed.

Lemma is_digit_pretty_N_char d : (d < 10)%N → is_digit (pretty_N_char d) = true.
Proof. intros Hd. unfold is_digit. by rewrite digit_value_pretty_N_char. Qed.

(** Reading back what [pretty_N_go] wrote: the digits of [x] shift the
    accumulator by a power of ten and add [x]. *)
Lemma Z_of_N_div_mod_10 x :
  Z.of_N x = 10 * Z.of_N (x `div` 10) + Z.of_N (x `mod` 10).
Proof.
  rewrite (N.div_mod' x 10) at 1. by rewrite N2Z.inj_add, N2Z.inj_mul.
Qed.

Lemma digits_pretty_N_go x :
  (0 < x)%N →
  ∃ k, ∀ acc b s,
    digits acc b (pretty_N_go x s) = digits (acc * 10 ^ Z.of_nat k + Z.of_N x) true s.
Proof.
  induction (N.lt_wf_0 x) as [x _ IH]. intros Hx.
  assert (x `mod` 10 < 10)%N as Hmod by (apply N.mod_lt; lia).
  destruct (decide (x `div` 10 = 0)%N) as [Hdiv|Hdiv].
  - exists 1%nat. intros acc b s.
    rewrite pretty_N_go_step, Hdiv, pretty_N_go_0 by done. cbn [digits].
    rewrite digit_value_pretty_N_char by done. f_equal.
    change (Z.of_nat 1) with 1.
    rewrite Z.pow_1_r, (Z_of_N_div_mod_10 x), Hdiv. cbn. ring.
  - destruct (IH (x `div` 10)%N) as [k Hk].
    { apply N.div_lt; lia. }
    { by apply N.neq_0_lt_0. }
    exists (S k). intros acc b s.
    rewrite pretty_N_go_step, Hk by done. cbn [digits].
    rewrite digit_value_pretty_N_char by done. f_equal.
    rewrite Nat2Z.inj_succ, Z.pow_succ_r by lia.
    rewrite (Z_of_N_div_mod_10 x). ring.
Qed.

Lemma all_digits_pretty_N_go x : ∀ s,
  all_chars is_digit s = true → all_chars is_digit (pretty_N_go x s) = true.
Proof.
  induction (N.lt_wf_0 x) as [x _ IH]. intros s Hs.
  destruct (decide (x = 0)%N) as [->|Hx]; [by rewrite pretty_N_go_0|].
  rewrite pretty_N_go_step by lia. apply IH.
  - apply N.div_lt; lia.
  - cbn. rewrite is_digit_pretty_N_char; [done|]. apply N.mod_lt; lia.
Qed.

Lemma is_digit_not_space c : is_digit c = true → is_space c = false.
Proof.
  unfold is_digit, digit_value, is_space.
  destruct (48 <=? nat_of_ascii c)%nat eqn:H1; [|done].
  destruct (nat_of_ascii c <=? 57)%nat eqn:H2; [|done]. intros _.
  apply Nat.leb_le in H1.
  apply orb_false_iff; split.
  - apply andb_false_iff; right. apply Nat.leb_gt. lia.
  - apply Nat.eqb_neq. lia.
Qed.

Lemma lstrip_no_space s : all_chars (λ c, negb (is_space c)) s = true → lstrip s = s.
Proof. destruct s as [|c s]; cbn; [done|]. by destruct (is_space c). Qed.

Lemma rstrip_no_space s : all_chars (λ c, negb (is_space c)) s = true → rstrip s = s.
Proof.
  induction s as [|c s IH]; cbn; [done|].
  destruct (is_space c); [done|]. cbn. intros Hs. rewrite (IH Hs).
  by destruct s.
Qed.

Lemma strip_no_space s : all_chars (λ c, negb (is_space c)) s = true → strip s = s.
Proof.
  intros Hs. unfold strip. rewrite (lstrip_no_space s Hs). by apply rstrip_no_space.
Qed.

Lemma all_digits_no_space s :
  all_chars is_digit s = true → all_chars (λ c, negb (is_space c)) s = true.
Proof.
  induction s as [|c s IH]; cbn; [done|].
  intros [Hc Hs]%andb_true_iff. by rewrite (is_digit_not_space c Hc), IH.
Qed.

Lemma is_digit_ascii c : is_digit c = true → is_ascii c = true.
Proof. destruct c as [[] [] [] [] [] [] [] []]; done. Qed.

Lemma all_digits_ascii s :
  all_chars is_digit s = true → all_chars is_ascii s = true.
Proof.
  induction s as [|c s IH]; cbn [all_chars]; [done|].
  intros [Hc Hs]%andb_true_iff. by rewrite (is_digit_ascii c Hc), IH.
Qed.

(** On a [str] of ASCII characters [int] is the ASCII parser. *)
Lemma py_int_ascii s : all_chars is_ascii s = true → py_int s = long_from_string s.
Proof. intros Hs. unfold py_int. by rewrite Hs. Qed.

Lemma py_int_all_digits s :
  all_chars is_digit s = true → py_int s = digits 0 false s.
Proof.
  intros Hs. rewrite py_int_ascii by by apply all_digits_ascii.
  unfold long_from_string. rewrite strip_no_space by by apply all_digits_no_space.
  destruct s as [|c r]; [done|]. cbn in Hs. apply andb_true_iff in Hs as [Hc _].
  destruct c as [[] [] [] [] [] [] [] []]; try done.
Qed.

Lemma py_int_minus_all_digits s :
  all_chars is_digit s = true → py_int (String "-" s) = Z.opp <$> digits 0 false s.
Proof.
  intros Hs. rewrite py_int_ascii.
  - unfold long_from_string. rewrite strip_no_space; [done|].
    cbn. by apply all_digits_no_space.
  - cbn [all_chars]. by rewrite all_digits_ascii.
Qed.

(** [int(str(k)) == k] *)
Lemma py_int_py_str k : py_int (py_str k) = Some k.
Proof.
  unfold py_str, pretty, pretty_Z. destruct k as [|p|p].
  - reflexivity.
  - unfold pretty, pretty_positive. unfold pretty, pretty_N.
    rewrite decide_False by done.
    rewrite py_int_all_digits by by apply all_digits_pretty_N_go.
    destruct (digits_pretty_N_go (N.pos p)) as [k ->]; [lia|]. cbn. f_equal.
  - unfold pretty, pretty_positive. unfold pretty, pretty_N.
    rewrite decide_False by done.
    change ("-" +:+ ?s) with (String "-" s).
    rewrite py_int_minus_all_digits by by apply all_digits_pretty_N_go.
    destruct (digits_pretty_N_go (N.pos p)) as [k ->]; [lia|]. cbn. f_equal.
Qed.

(** ** Saving and loading *)

Lemma int_keys_py_str (l : list (Z * pyval)) : ∀ acc,
  int_keys ((λ kv, (py_str kv.1, kv.2)) <$> l) acc
  = Ok (foldl (λ m kv, <[kv.1 := kv.2]> m) acc l).
Proof.
  induction l as [|[k v] l IH]; intros acc; cbn; [done|].
  by rewrite py_int_py_str, IH.
Qed.

Lemma foldl_insert_union (l : list (Z * pyval)) : ∀ acc : gmap Z pyval,
  foldl (λ m kv, <[kv.1 := kv.2]> m) acc l = list_to_map (reverse l) ∪ acc.
Proof.
  induction l as [|[k v] l IH]; intros acc.
  - cbn. by rewrite (left_id_L ∅ (∪)).
  - rewrite reverse_cons, list_to_map_app. cbn [foldl list_to_map foldr fst snd].
    rewrite IH, insert_empty, <- (assoc_L (∪)).
    by rewrite <- insert_union_singleton_l.
Qed.

Lemma foldl_insert_map_to_list (us : gmap Z pyval) :
  foldl (λ m kv, <[kv.1 := kv.2]> m) ∅ (map_to_list us) = us.
Proof.
  rewrite foldl_insert_union, (right_id_L ∅ (∪)).
  rewrite <- (list_to_map_to_list us) at 2.
  symmetry. apply list_to_map_proper.
  - apply NoDup_fst_map_to_list.
  - symmetry. apply reverse_Permutation.
Qed.

Lemma int_keys_bad_key kvs : ∀ acc,
  Exists (λ kv, py_int kv.1 = None) kvs → int_keys kvs acc = Raise ValueError.
Proof.
  induction kvs as [|[k v] kvs IH]; intros acc Hex; [by inversion Hex|].
  cbn. destruct (py_int k) as [n|] eqn:Hk; [|done].
  apply IH. inversion Hex as [? ? Hbad|]; subst; [|done]. cbn in Hbad. congruence.
Qed.

(** C4.  What [save_stats] writes, [load_stats] reads back: if the file
    can be opened, then in any later world that still has the file just
    written, loading sets [user_stats] to the mapping that was saved. *)
Theorem load_after_save (w w' : world) :
  io_fault w = false →
  io_fault w' = false →
  stats_file w' = stats_file (save_stats w).2 →
  (load_stats w').1 = Ok tt
  ∧ user_stats (load_stats w').2 = user_stats w.
Proof.
  intros Hio Hio' Hfile.
  assert (stats_file w' = Some (Decodes (stats_to_save (user_stats w)))) as Hf.
  { rewrite Hfile. destruct w; cbn in *. subst.
    by unfold save_stats, try_except, bind, open_write; cbn. }
  clear Hfile. destruct w' as [us' vj' ss' clk' t' fl' io' out']; cbn in *. subst.
  unfold load_stats, bind, gets, try_except, open_read, lift; cbn.
  rewrite int_keys_py_str, foldl_insert_map_to_list. by cbn.
Qed.

(** C7.  [load_stats] never raises.  It leaves the empty mapping, and a
    line on the output, when the file is missing, when [json.load] raises
    on its text (the line is the one of the [except] clause that catches
    the exception raised), when it decodes to something that is not a
    dictionary, and when it decodes to a dictionary with a key that [int]
    rejects. *)
Theorem load_stats_never_raises (w : world) :
  (load_stats w).1 = Ok tt
  ∧ (stats_file w = None →
     user_stats (load_stats w).2 = ∅
     ∧ stdout (load_stats w).2 = (stdout w ++ [StatsFileNotFound])%list)
  ∧ (∀ e, stats_file w = Some (Undecodable e) →
     user_stats (load_stats w).2 = ∅
     ∧ stdout (load_stats w).2
       = (stdout w ++ [if io_fault w then UnexpectedLoadError OSError
                       else match e with
                            | JSONDecodeError => ErrorReading
                            | _ => UnexpectedLoadError e
                            end])%list)
  ∧ (∀ v e, stats_file w = Some (Decodes v) → items v = Raise e →
     user_stats (load_stats w).2 = ∅
     ∧ stdout (load_stats w).2
       = (stdout w ++ [UnexpectedLoadError
                         (if io_fault w then OSError else AttributeError)])%list)
  ∧ (∀ kvs, stats_file w = Some (Decodes (PDict kvs)) →
     Exists (λ kv, py_int kv.1 = None) kvs →
     user_stats (load_stats w).2 = ∅
     ∧ stdout (load_stats w).2
       = (stdout w ++ [UnexpectedLoadError
                         (if io_fault w then OSError else ValueError)])%list).
Proof.
  destruct w as [us vj ss clk t fl io out]; cbn.
  unfold load_stats, bind, gets, try_except, open_read, lift; cbn.
  split; [|split; [|split; [|split]]].
  - destruct fl as [[e|v]|]; cbn; [destruct io; cbn; [done|by destruct e]| |done].
    destruct io; cbn; [done|].
    destruct (items v) as [kvs|e]; cbn; [|by destruct e].
    destruct (int_keys kvs ∅) as [m|e]; cbn; [done|by destruct e].
  - by intros ->.
  - intros e ->; cbn. destruct io; cbn; [done|by destruct e].
  - intros v e -> Hv; cbn. destruct io; cbn; [done|].
    destruct v; cbn in *; by simplify_eq.
  - intros kvs -> Hbad; cbn. destruct io; cbn; [done|].
    by rewrite (int_keys_bad_key kvs ∅ Hbad).
Qed.

(** ** One entry per user and kind; nothing credited twice *)

Lemma filter_key_absent (u : Z) (l : list (Z * Q)) :
  u ∉ l.*1 → filter (λ kv, kv.1 = u) l = [].
Proof.
  induction l as [|[k v] l IH]; [done|].
  rewrite fmap_cons, not_elem_of_cons. intros [Hne Hl].
  rewrite filter_cons, decide_False by (cbn in *; congruence). by apply IH.
Qed.

Lemma entries_of_le_1 u m : (entries_of u m ≤ 1)%nat.
Proof.
  unfold entries_of. pose proof (NoDup_fst_map_to_list m) as Hnd.
  induction (map_to_list m) as [|[k v] l IH]; [cbn; lia|].
  rewrite fmap_cons in Hnd. apply NoDup_cons in Hnd as [Hk Hnd].
  rewrite filter_cons.
  destruct (decide ((k, v).1 = u)) as [Hu|Hu]; cbn in Hu; [|by apply IH].
  subst. rewrite filter_key_absent by done. cbn. lia.
Qed.

Global Instance still_closed_preorder k u : PreOrder (still_closed k u).
Proof.
  split; unfold still_closed.
  - by intros w H.
  - intros w1 w2 w3 H12 H23 H. by apply H23, H12.
Qed.

Lemma print_still_closed k u l : keeps (still_closed k u) (print l).
Proof. intros w. unfold still_closed. by destruct k, w. Qed.
Lemma time_time_still_closed k u : keeps (still_closed k u) time_time.
Proof. intros w. unfold still_closed. by destruct k, w. Qed.
Lemma pop_voice_join_time_still_closed k u v :
  keeps (still_closed k u) (pop_voice_join_time v).
Proof.
  intros w. unfold pop_voice_join_time, pop_time.
  destruct (voice_join_times w !! v) eqn:E; [|reflexivity].
  destruct k; unfold still_closed; cbn; [|done].
  intros Hu. rewrite lookup_delete. by case_decide.
Qed.
Lemma pop_stream_start_time_still_closed k u v :
  keeps (still_closed k u) (pop_stream_start_time v).
Proof.
  intros w. unfold pop_stream_start_time, pop_time.
  destruct (stream_start_times w !! v) eqn:E; [|reflexivity].
  destruct k; unfold still_closed; cbn; [done|].
  intros Hu. rewrite lookup_delete. by case_decide.
Qed.
Lemma increment_user_stat_still_closed k u v f x :
  keeps (still_closed k u) (increment_user_stat v f x).
Proof.
  intros w.
  destruct (increment_user_stat_run v f x w) as (r & us' & Heq & _).
  rewrite Heq. unfold still_closed. by destruct k, w.
Qed.
Lemma set_voice_join_time_stream_still_closed u (f : world → gmap Z Q) :
  keeps (still_closed StreamSession u)
        (modify (λ w, with_voice_join_times (f w) w)).
Proof. intros w. unfold still_closed. by destruct w. Qed.

#[global] Hint Resolve
  print_still_closed time_time_still_closed pop_voice_join_time_still_closed
  pop_stream_start_time_still_closed increment_user_stat_still_closed
  set_voice_join_time_stream_still_closed : keeps.

Lemma join_leave_tracking_stream_still_closed m b a u :
  keeps (still_closed StreamSession u) (join_leave_tracking m b a).
Proof.
  unfold join_leave_tracking, credit_call_time, credit_stream_time_on_leave.
  keeps_auto.
Qed.

(** Events that do not change whether the member is in a channel. *)
Lemma join_leave_tracking_same m b a w :
  is_none (channel b) = is_none (channel a) →
  join_leave_tracking m b a w = (Ok tt, w).
Proof.
  unfold join_leave_tracking. by destruct (channel b), (channel a).
Qed.

(** Events that do not change whether the member is streaming. *)
Lemma streaming_tracking_same m b a w :
  self_stream b = self_stream a → streaming_tracking m b a w = (Ok tt, w).
Proof.
  unfold streaming_tracking. by destruct (self_stream b), (self_stream a).
Qed.

(** Unless the member leaves, the join/leave half touches neither the
    stream sessions nor any statistic but the member's [join_count]. *)
Lemma join_leave_tracking_not_leave_stream m b a :
  open_to_closed b a = false →
  keeps same_stream_start_times (join_leave_tracking m b a).
Proof.
  unfold open_to_closed, join_leave_tracking. intros ->. keeps_auto.
Qed.

Lemma join_leave_tracking_not_leave_stats m b a :
  open_to_closed b a = false →
  keeps (stats_frame (member_id m) ["join_count"]) (join_leave_tracking m b a).
Proof.
  unfold open_to_closed, join_leave_tracking. intros ->. keeps_auto.
Qed.

Lemma on_voice_state_update_other_user m b a w u f :
  u ≠ member_id m →
  committed (user_stats (on_voice_state_update m b a w).2) u f
  = committed (user_stats w) u f.
Proof.
  intros Hne. unfold on_voice_state_update. rewrite bind_snd.
  pose proof (join_leave_tracking_stats_frame m b a w) as Hjl.
  destruct (join_leave_tracking m b a w) as [[[]|e] w1]; cbn in *.
  - rewrite <- (Hjl u f) by by left.
    apply (streaming_tracking_stats_frame m b a w1). by left.
  - apply Hjl. by left.
Qed.

Lemma credit_call_time_stats_frame m :
  keeps (stats_frame (member_id m) ["call_time"]) (credit_call_time m).
Proof. unfold credit_call_time. keeps_auto. Qed.

Lemma credit_call_time_stream_still_closed m u :
  keeps (still_closed StreamSession u) (credit_call_time m).
Proof. unfold credit_call_time. keeps_auto. Qed.

(** A member without an open call session leaves: [call_time] is not
    touched. *)
Lemma join_leave_tracking_leave_no_call m b a w :
  open_to_closed b a = true →
  voice_join_times w !! member_id m = None →
  stats_frame (member_id m) ["stream_time"] w (join_leave_tracking m b a w).2.
Proof.
  intros (ch & Hb & Ha)%open_to_closed_inv Hvj.
  unfold join_leave_tracking. rewrite Hb, Ha; cbn.
  rewrite bind_snd; cbn. rewrite bind_snd; cbn. rewrite bind_snd.
  rewrite credit_call_time_absent by done.
  match goal with
  | |- context [credit_stream_time_on_leave m ?w0] =>
      exact (credit_stream_time_on_leave_stats_frame m w0)
  end.
Qed.

(** A member without an open stream session leaves: [stream_time] is not
    touched. *)
Lemma join_leave_tracking_leave_no_stream m b a w :
  open_to_closed b a = true →
  stream_start_times w !! member_id m = None →
  stats_frame (member_id m) ["call_time"] w (join_leave_tracking m b a w).2.
Proof.
  intros (ch & Hb & Ha)%open_to_closed_inv Hss.
  unfold join_leave_tracking. rewrite Hb, Ha; cbn.
  rewrite bind_snd; cbn. rewrite bind_snd; cbn. rewrite bind_snd.
  set (w0 := with_stdout _ w).
  pose proof (credit_call_time_stats_frame m w0) as Hfr.
  pose proof (credit_call_time_stream_still_closed m (member_id m) w0 Hss) as Hcl.
  destruct (credit_call_time m w0) as [[[]|e] w1]; cbn in *; [|exact Hfr].
  by rewrite credit_stream_time_on_leave_absent.
Qed.

(** Without an open stream session the streaming half leaves the
    statistics alone. *)
Lemma streaming_tracking_no_stream m b a w :
  stream_start_times w !! member_id m = None →
  user_stats (streaming_tracking m b a w).2 = user_stats w.
Proof.
  intros Hss. unfold streaming_tracking.
  destruct (negb (self_stream b) && self_stream a).
  - assert (keeps same_user_stats
      (let! chan := channel_name (channel a) in
       print (StartedStreaming (display_name m) chan) >>
       let! now := time_time in
       modify (λ w, with_stream_start_times
                      (<[member_id m := now]> (stream_start_times w)) w)))
      as Hk by keeps_auto.
    apply Hk.
  - destruct (self_stream b && negb (self_stream a) && negb (is_none (channel a)));
      [|done].
    rewrite bind_snd. destruct (channel a) as [ch|]; cbn; [|done].
    rewrite bind_snd; cbn. by rewrite credit_stream_time_absent.
Qed.

Lemma not_in_singleton (f g : string) : f ≠ g → f ∉ [g].
Proof. intros Hne. rewrite not_elem_of_cons. split; [done|apply not_elem_of_nil]. Qed.

(** No event credits a duration to a user who has no open session of
    that kind. *)
Lemma dispatch_closed_no_credit e w k u :
  open_sessions k w !! u = None →
  committed (user_stats (dispatch e w)) u (duration_stat k)
  = committed (user_stats w) u (duration_stat k).
Proof.
  intros Hclosed. destruct e as [m b a]. unfold dispatch; cbn.
  destruct (decide (u = member_id m)) as [->|Hne].
  2:{ by apply on_voice_state_update_other_user. }
  unfold on_voice_state_update. rewrite bind_snd.
  destruct k; cbn in *.
  - assert (committed (user_stats (join_leave_tracking m b a w).2)
              (member_id m) "call_time"
            = committed (user_stats w) (member_id m) "call_time") as Hjl.
    { destruct (open_to_closed b a) eqn:Hl.
      - apply (join_leave_tracking_leave_no_call m b a w Hl Hclosed).
        right. by apply not_in_singleton.
      - apply (join_leave_tracking_not_leave_stats m b a Hl w).
        right. by apply not_in_singleton. }
    destruct (join_leave_tracking m b a w) as [[[]|e] w1]; cbn in *; [|done].
    rewrite <- Hjl. apply (streaming_tracking_stats_frame m b a w1).
    right. by apply not_in_singleton.
  - assert (committed (user_stats (join_leave_tracking m b a w).2)
              (member_id m) "stream_time"
            = committed (user_stats w) (member_id m) "stream_time") as Hjl.
    { destruct (open_to_closed b a) eqn:Hl.
      - apply (join_leave_tracking_leave_no_stream m b a w Hl Hclosed).
        right. by apply not_in_singleton.
      - apply (join_leave_tracking_not_leave_stats m b a Hl w).
        right. by apply not_in_singleton. }
    pose proof (join_leave_tracking_stream_still_closed m b a (member_id m) w
                  Hclosed) as Hcl.
    destruct (join_leave_tracking m b a w) as [[[]|e] w1]; cbn in *; [|done].
    by rewrite streaming_tracking_no_stream.
Qed.

(** C9.  Each open-session dictionary holds at most one entry per user
    after any sequence of events.  An event that does not change whether
    the member is in a channel leaves the call sessions, [call_time] and
    [join_count] as they were; an event that does not change whether the
    member streams, and is not a leave, leaves the stream sessions and
    [stream_time] as they were; and no event credits a duration to a
    user without an open session of that kind. *)
Theorem one_entry_and_no_double_count :
  (∀ es w k u, (entries_of u (open_sessions k (run_events es w)) ≤ 1)%nat)
  ∧ (∀ m b a w u,
       is_none (channel b) = is_none (channel a) →
       let w' := dispatch (Event m b a) w in
       voice_join_times w' = voice_join_times w
       ∧ stat_of w' u "call_time" = stat_of w u "call_time"
       ∧ stat_of w' u "join_count" = stat_of w u "join_count")
  ∧ (∀ m b a w u,
       self_stream b = self_stream a →
       open_to_closed b a = false →
       let w' := dispatch (Event m b a) w in
       stream_start_times w' = stream_start_times w
       ∧ stat_of w' u "stream_time" = stat_of w u "stream_time")
  ∧ (∀ e w k u,
       open_sessions k w !! u = None →
       stat_of (dispatch e w) u (duration_stat k) = stat_of w u (duration_stat k)).
Proof.
  split; [|split; [|split]].
  - intros. apply entries_of_le_1.
  - intros m b a w u Hsame. cbn. rewrite !stat_of_committed.
    unfold dispatch, on_voice_state_update; cbn.
    rewrite bind_snd, join_leave_tracking_same by done.
    split; [apply (streaming_tracking_same_voice_join_times m b a w)|].
    destruct (decide (u = member_id m)) as [->|Hne].
    + split; apply (streaming_tracking_stats_frame m b a w);
        right; by apply not_in_singleton.
    + split; apply (streaming_tracking_stats_frame m b a w); by left.
  - intros m b a w u Hsame Hl. cbn. rewrite !stat_of_committed.
    unfold dispatch, on_voice_state_update; cbn. rewrite bind_snd.
    pose proof (join_leave_tracking_not_leave_stream m b a Hl w) as Hss.
    pose proof (join_leave_tracking_not_leave_stats m b a Hl w) as Hfr.
    assert (committed (user_stats (join_leave_tracking m b a w).2) u "stream_time"
            = committed (user_stats w) u "stream_time") as Hst.
    { destruct (decide (u = member_id m)) as [->|Hne].
      - apply Hfr. right. by apply not_in_singleton.
      - apply Hfr. by left. }
    destruct (join_leave_tracking m b a w) as [[[]|e] w1]; cbn in *; [|done].
    by rewrite streaming_tracking_same.
  - intros e w k u Hclosed. rewrite !stat_of_committed.
    by apply dispatch_closed_no_credit.
Qed.

(** ** Concrete runs *)

Example py_int_examples :
  py_int "12" = Some 12 ∧ py_int " -1_000 " = Some (-1000)
  ∧ py_int "+7" = Some 7 ∧ py_int "007" = Some 7
  ∧ py_int "1__0" = None ∧ py_int "_1" = None ∧ py_int "1_" = None
  ∧ py_int "- 1" = None ∧ py_int "" = None ∧ py_int "seven" = None.
Proof. vm_compute. repeat split. Qed.

(** [int] on digits and white space outside ASCII: digits of other
    scripts count, alone or next to ASCII digits; a superscript two is no
    decimal digit. *)
Example py_int_unicode_examples :
  py_int "٧" = Some 7 ∧ py_int "١٢" = Some 12 ∧ py_int "-٧" = Some (-7)
  ∧ py_int "1٢" = Some 12 ∧ py_int "٧_٧" = Some 77 ∧ py_int "７" = Some 7
  ∧ py_int (no_break_space +:+ "7") = Some 7
  ∧ py_int ("7" +:+ no_break_space) = Some 7
  ∧ py_int "²" = None ∧ py_int "٧__٧" = None ∧ py_int "٧?" = None
  ∧ py_int "é7" = None ∧ py_int (String (ascii_of_nat 255) "7") = None.
Proof. vm_compute. repeat split. Qed.

(** Keys [int] reads although they are not ASCII are loaded as any
    other. *)
Example load_stats_unicode_keys :
  (load_stats unicode_key_world).1 = Ok tt
  ∧ user_stats (load_stats unicode_key_world).2
    = {[ 7 := zero_record; 8 := PDict [] ]}
  ∧ stdout (load_stats unicode_key_world).2 = [LoadedStats].
Proof. vm_compute. repeat split. Qed.

(** Only [JSONDecodeError] is reported as an error reading the file. *)
Example load_stats_undecodable_examples :
  stdout (load_stats (undecodable_world JSONDecodeError)).2 = [ErrorReading]
  ∧ stdout (load_stats (undecodable_world UnicodeDecodeError)).2
    = [UnexpectedLoadError UnicodeDecodeError]
  ∧ stdout (load_stats (undecodable_world RecursionError)).2
    = [UnexpectedLoadError RecursionError]
  ∧ stdout (load_stats (undecodable_world ValueError)).2
    = [UnexpectedLoadError ValueError].
Proof. vm_compute. repeat split. Qed.

Example format_duration_examples :
  format_duration (PNum 3661) = Ok "1:01:01"
  ∧ format_duration (PNum 90061) = Ok "1 day, 1:01:01"
  ∧ format_duration (PNum 200000) = Ok "2 days, 7:33:20"
  ∧ format_duration (PNum (7 # 2)) = Ok "0:00:03"
  ∧ format_duration (PNum (-5)) = Ok "0:00:00"
  ∧ format_duration (PStr "x") = Raise TypeError.
Proof. vm_compute. repeat split. Qed.

(** The example of the specification: join at 0, stream from 10 to 40,
    leave at 100. *)
Example spec_example :
  let clk (n : nat) : Q :=
    match n with 0%nat => 0%Q | 1%nat => 10%Q | 2%nat => 40%Q | _ => 100%Q end in
  let w := run_events
             [Event alice (away false) (in_call false);
              Event alice (in_call false) (in_call true);
              Event alice (in_call true) (in_call false);
              Event alice (in_call false) (away false)]
             (initial_world clk None false) in
  user_stats w !! 7
  = Some (PDict [("call_time", PNum 100); ("stream_time", PNum 30);
                 ("join_count", PNum 1)])
  ∧ voice_join_times w = ∅ ∧ stream_start_times w = ∅.
Proof. vm_compute. repeat split. Qed.

(** C1, counterexample.  Alice has 100 seconds of call time and an open
    call session that started when the clock read 110.  She leaves when
    the clock reads 50: the leave adds -60, and her call time drops from
    100 to 40. *)
Lemma close_call_session_not_floored :
  let w := alice_rejoined in
  let w' := dispatch (Event alice (in_call false) (away false)) w in
  voice_join_times w !! 7 = Some 110%Q
  ∧ clock w (ticks w) = 50%Q
  ∧ stat_of w 7 "call_time" = Ok (PNum 100)
  ∧ stat_of w' 7 "call_time" = Ok (PNum 40)
  ∧ ¬ (100 <= 40)%Q.
Proof.
  repeat split; try (vm_compute; reflexivity).
  apply Qlt_not_le. reflexivity.
Qed.

(** C1, the amended statement at the same input. *)
Lemma close_call_session_adds_difference_witness :
  let w := alice_rejoined in
  let w' := dispatch (Event alice (in_call false) (away false)) w in
  stat_of w' 7 "call_time" = Ok (PNum (100 + (50 - 110)))
  ∧ voice_join_times w' !! 7 = None.
Proof.
  exact (close_call_session_adds_difference alice (in_call false) (away false)
           alice_rejoined 110 (PNum 100) 100
           eq_refl eq_refl eq_refl eq_refl).
Defined.

(** C2, counterexample.  Asking for the call time of a user who has no
    record creates one. *)
Lemma query_creates_record :
  let w := initial_world steady_clock None false in
  user_stats w !! 7 = None
  ∧ user_stats (calltime alice w).2 !! 7 = Some zero_record.
Proof. vm_compute. by split. Qed.

(** C4 at a concrete world: the dictionaries are emptied between the save
    and the load, as by a restart. *)
Lemma load_after_save_witness :
  let w := alice_joined steady_clock in
  (load_stats (with_user_stats ∅ (save_stats w).2)).1 = Ok tt
  ∧ user_stats (load_stats (with_user_stats ∅ (save_stats w).2)).2 = user_stats w.
Proof.
  exact (load_after_save (alice_joined steady_clock)
           (with_user_stats ∅ (save_stats (alice_joined steady_clock)).2)
           eq_refl eq_refl eq_refl).
Defined.

(** C6 at a concrete world: Alice joined at 0, streams since 1, and the
    two clock readings of the leave are 2 and 3. *)
Lemma leave_closes_both_sessions_witness :
  let w := alice_streaming steady_clock in
  let w' := dispatch (Event alice (in_call true) (away false)) w in
  voice_join_times w' !! 7 = None
  ∧ stream_start_times w' !! 7 = None
  ∧ stat_of w' 7 "call_time" = Ok (PNum (0 + (2 - 0)))
  ∧ stat_of w' 7 "stream_time" = Ok (PNum (0 + (3 - 1))).
Proof.
  exact (leave_closes_both_sessions alice (in_call true) (away false)
           (alice_streaming steady_clock) 0 1 (PNum 0) 0 (PNum 0) 0
           eq_refl eq_refl eq_refl eq_refl eq_refl eq_refl eq_refl).
Defined.

(** C7 at a stats file with the keys 7 and seven. *)
Lemma load_stats_never_raises_witness :
  (load_stats bad_key_world).1 = Ok tt
  ∧ user_stats (load_stats bad_key_world).2 = ∅
  ∧ stdout (load_stats bad_key_world).2 = [UnexpectedLoadError ValueError].
Proof.
  destruct (load_stats_never_raises bad_key_world) as (Hok & _ & _ & _ & Hbad).
  split; [exact Hok|].
  apply (Hbad [("7", zero_record); ("seven", zero_record)] eq_refl).
  apply Exists_cons_tl, Exists_cons_hd. reflexivity.
Defined.

(** C8, counterexample.  In the same world a call-time query computes
    100 + (50 - 110) = 40, less than the committed 100, and the reply
    shows 0:00:40 where the committed value alone would show 0:01:40. *)
Lemma open_session_total_below_committed :
  let w := alice_rejoined in
  voice_join_times w !! 7 = Some 110%Q
  ∧ stat_of w 7 "call_time" = Ok (PNum 100)
  ∧ (calltime_total alice w).1 = Ok (PNum 40)
  ∧ ¬ (100 <= 40)%Q
  ∧ (calltime alice w).1 = Ok (SpentInCalls "alice" "0:00:40")
  ∧ format_duration (PNum 100) = Ok "0:01:40".
Proof.
  repeat split; try (vm_compute; reflexivity).
  apply Qlt_not_le. reflexivity.
Qed.

(** C8, the amended statement for a clock that advances. *)
Lemma open_session_total_witness :
  let w := alice_joined steady_clock in
  ∃ w1 w2,
    calltime_total alice w = (Ok (PNum (0 + (1 - 0))), w1)
    ∧ calltime_total alice w1 = (Ok (PNum (0 + (2 - 0))), w2)
    ∧ ((0 <= 1)%Q → (0 <= 0 + (1 - 0))%Q)
    ∧ ((1 <= 2)%Q → (0 + (1 - 0) <= 0 + (2 - 0))%Q).
Proof.
  exact (open_session_total CallSession alice (alice_joined steady_clock)
           0 (PNum 0) 0 eq_refl eq_refl eq_refl).
Defined.

(** C9 at a concrete world: Alice is in a call and an event arrives whose
    two snapshots are both in the channel and not streaming. *)
Lemma one_entry_and_no_double_count_witness :
  let w := alice_joined steady_clock in
  let w' := dispatch (Event alice (in_call false) (in_call false)) w in
  (entries_of 7 (voice_join_times w') ≤ 1)%nat
  ∧ voice_join_times w' = voice_join_times w
  ∧ stat_of w' 7 "call_time" = stat_of w 7 "call_time"
  ∧ stat_of w' 7 "join_count" = stat_of w 7 "join_count"
  ∧ stream_start_times w' = stream_start_times w
  ∧ stat_of w' 7 "stream_time" = stat_of w 7 "stream_time"
  ∧ stat_of (dispatch (Event alice (in_call false) (away false)) w) 7 "stream_time"
    = stat_of w 7 "stream_time".
Proof.
  destruct one_entry_and_no_double_count as (Hone & Hcall & Hstream & Hclosed).
  pose (ev := Event alice (in_call false) (in_call false)).
  split; [exact (Hone [ev] (alice_joined steady_clock) CallSession 7)|].
  destruct (Hcall alice (in_call false) (in_call false)
              (alice_joined steady_clock) 7 eq_refl) as (H1 & H2 & H3).
  destruct (Hstream alice (in_call false) (in_call false)
              (alice_joined steady_clock) 7 eq_refl eq_refl) as (H4 & H5).
  pose proof (Hclosed (Event alice (in_call false) (away false))
                (alice_joined steady_clock) StreamSession 7 eq_refl) as H6.
  repeat split; assumption.
Defined.

(** A record with a missing field, as [load_stats] takes it from a
    stats file. *)
Example loaded_partial_record :
  let w := World ∅ ∅ ∅ steady_clock 0
             (Some (Decodes (PDict [("7", PDict [("call_time", PNum 12)])])))
             false [] in
  user_stats (load_stats w).2 !! 7 = Some (PDict [("call_time", PNum 12)])
  ∧ stat_of (load_stats w).2 7 "join_count" = Ok (PNum 0).
Proof. vm_compute. by split. Qed.

(** C10 at a record that has only [call_time]. *)
Lemma missing_field_counts_as_zero_witness :
  (∀ default, get_user_stat 7 "join_count" default partial_record_world
              = (Ok default, partial_record_world))
  ∧ increment_user_stat 7 "join_count" 1 partial_record_world
    = (Ok tt,
       with_user_stats
         (<[7 := PDict (dict_set "join_count" (PNum (0 + 1))
                          [("call_time", PNum 12)])]>
            (user_stats partial_record_world))
         partial_record_world).
Proof.
  exact (missing_field_counts_as_zero partial_record_world 7
           [("call_time", PNum 12)] "join_count" 1 eq_refl eq_refl).
Defined.

(** * Further properties of the helper functions and the commands *)

(** ** [get_user_stat] and [increment_user_stat] *)

(** X1.  After [increment_user_stat] on a numeric value, [get_user_stat]
    returns the sum; every other statistic of every user reads as before
    and the open sessions are untouched. *)
Theorem increment_then_get w u f v cur a :
  stat_of w u f = Ok cur →
  as_number cur = Some a →
  let w' := (increment_user_stat u f v w).2 in
  (increment_user_stat u f v w).1 = Ok tt
  ∧ stat_of w' u f = Ok (PNum (a + v)%Q)
  ∧ (∀ u' g, u' ≠ u ∨ g ≠ f → stat_of w' u' g = stat_of w u' g)
  ∧ voice_join_times w' = voice_join_times w
  ∧ stream_start_times w' = stream_start_times w.
Proof.
  intros Hcur Hnum. rewrite stat_of_committed in Hcur. cbn.
  destruct (increment_user_stat_run u f v w) as (r & us' & Heq & Hfr & Hok).
  destruct (Hok _ _ Hcur Hnum) as [-> Hsum]. rewrite Heq.
  split; [done|]. split; [|split; [|split; by destruct w]].
  - rewrite stat_of_committed. by destruct w.
  - intros u' g Hne. rewrite !stat_of_committed.
    replace (user_stats (Ok (), with_user_stats us' w).2) with us' by by destruct w.
    apply Hfr. destruct Hne as [?|Hg]; [by left|right].
    by apply not_in_singleton.
Qed.

(** X2.  When the stored value cannot be incremented, nothing is written:
    on a record that is not a dictionary both helpers raise
    [AttributeError], on a field that holds no number
    [increment_user_stat] raises [TypeError], and the world stays as it
    was. *)
Theorem increment_refused w u f v :
  (∀ r, user_stats w !! u = Some r → (∀ d, r ≠ PDict d) →
     get_user_stat u f (PNum 0) w = (Raise AttributeError, w)
     ∧ increment_user_stat u f v w = (Raise AttributeError, w))
  ∧ (∀ d x, user_stats w !! u = Some (PDict d) → dict_get f d = Some x →
     as_number x = None →
     increment_user_stat u f v w = (Raise TypeError, w)).
Proof.
  destruct w as [us vj ss clk t fl io out]; cbn. split.
  - intros r Hu Hr.
    assert (get_user_stat u f (PNum 0) (World us vj ss clk t fl io out)
            = (Raise AttributeError, World us vj ss clk t fl io out)) as Hget.
    { unfold get_user_stat, bind, init_if_absent, user_record, lift; cbn.
      rewrite Hu; cbn. rewrite Hu; cbn.
      destruct r; try done. by destruct (Hr d). }
    split; [exact Hget|].
    unfold increment_user_stat, bind at 1. by rewrite Hget.
  - intros d x Hu Hf Hx.
    unfold increment_user_stat, get_user_stat, bind, init_if_absent,
      user_record, lift, py_add; cbn.
    rewrite Hu; cbn. rewrite Hu; cbn. rewrite Hf; cbn.
    rewrite Hu; cbn. by rewrite Hx.
Qed.

(** ** The slash commands *)

Lemma keeps_read {A} (R : relation world) `{!PreOrder R} (f : world → result A) :
  keeps R (λ w, (f w, w)).
Proof. intros w. reflexivity. Qed.

Lemma get_user_stat_stats_frame u v f :
  keeps (stats_frame u []) (get_user_stat v f (PNum 0)).
Proof.
  intros w. rewrite get_user_stat_run. unfold stats_frame.
  destruct w; cbn. intros u' g _. apply committed_materialize.
Qed.

Lemma run_command_stats_frame c user u :
  keeps (stats_frame u []) (run_command c user).
Proof.
  destruct c; cbn [run_command];
    unfold calltime, streamtime, joincount, calltime_total, streamtime_total.
  - apply keeps_bind; [|intros; keeps_auto].
    apply keeps_bind; [apply get_user_stat_stats_frame|intros].
    apply keeps_bind; [keeps_auto|intros [|]; [|keeps_auto]].
    apply keeps_bind; [keeps_auto|intros].
    apply keeps_bind; [apply keeps_read; apply _|intros; keeps_auto].
  - apply keeps_bind; [|intros; keeps_auto].
    apply keeps_bind; [apply get_user_stat_stats_frame|intros].
    apply keeps_bind; [keeps_auto|intros [|]; [|keeps_auto]].
    apply keeps_bind; [keeps_auto|intros].
    apply keeps_bind; [apply keeps_read; apply _|intros; keeps_auto].
  - apply keeps_bind; [apply get_user_stat_stats_frame|intros; keeps_auto].
Qed.

(** X3.  A query changes nothing that [get_user_stat] can read: after any
    of the three commands every statistic of every user reads as
    before.  The record a query may create is all zeros, which is what an
    absent record reads as. *)
Theorem query_preserves_stats (c : command) (user : Member) (w : world) u f :
  stat_of (run_command c user w).2 u f = stat_of w u f.
Proof.
  rewrite !stat_of_committed.
  apply (run_command_stats_frame c user u w). right. apply not_elem_of_nil.
Qed.

(** X4.  For a user with no record and no open session the three
    commands answer zero: [0:00:00] in calls, [0:00:00] streaming, and a
    join count of 0.  None of them raises. *)
Theorem query_unseen_user (user : Member) (w : world) :
  user_stats w !! member_id user = None →
  voice_join_times w !! member_id user = None →
  stream_start_times w !! member_id user = None →
  (calltime user w).1 = Ok (SpentInCalls (display_name user) "0:00:00")
  ∧ (streamtime user w).1 = Ok (SpentStreaming (display_name user) "0:00:00")
  ∧ (joincount user w).1 = Ok (JoinedTimes (display_name user) (PNum 0)).
Proof.
  intros Hu Hvj Hss.
  unfold calltime, streamtime, joincount.
  change calltime_total with (duration_total CallSession).
  change streamtime_total with (duration_total StreamSession).
  unfold bind. rewrite !duration_total_run, get_user_stat_run.
  rewrite !committed_absent by done. cbn. by rewrite Hvj, Hss.
Qed.

(** ** Opening and closing sessions *)

(** The join branch in full: the clock is read once, the reading becomes
    the member's start instant whatever was recorded before, and
    [join_count] is incremented. *)
Lemma join_leave_tracking_join_run m b a w :
  closed_to_open b a = true →
  ∃ r us' out',
    join_leave_tracking m b a w
    = (r, World us'
            (<[member_id m := clock w (ticks w)]> (voice_join_times w))
            (stream_start_times w) (clock w) (S (ticks w))
            (stats_file w) (io_fault w) out')
    ∧ frame (member_id m) ["join_count"] (user_stats w) us'
    ∧ (∀ cur c, committed (user_stats w) (member_id m) "join_count" = Ok cur →
         as_number cur = Some c →
         r = Ok tt
         ∧ committed us' (member_id m) "join_count" = Ok (PNum (c + 1)%Q)).
Proof.
  unfold closed_to_open, join_leave_tracking. intros Hj. rewrite Hj.
  destruct (channel b), (channel a) as [ch|]; try discriminate.
  destruct w as [us vj ss clk t fl io out]; cbn.
  unfold bind; cbn.
  match goal with
  | |- context [increment_user_stat ?u ?f ?v ?w1] =>
      destruct (increment_user_stat_run u f v w1) as (r & us' & Heq & Hfr & Hok)
  end.
  rewrite Heq; cbn in *. by exists r, us', (out ++ [JoinedChannel (display_name m) (name ch)])%list.
Qed.

(** The started-streaming branch in full, for a member in a channel. *)
Lemma streaming_tracking_start_run m b a w ch :
  self_stream b = false → self_stream a = true → channel a = Some ch →
  streaming_tracking m b a w
  = (Ok tt, World (user_stats w) (voice_join_times w)
              (<[member_id m := clock w (ticks w)]> (stream_start_times w))
              (clock w) (S (ticks w)) (stats_file w) (io_fault w)
              (stdout w ++ [StartedStreaming (display_name m) (name ch)])%list).
Proof.
  unfold streaming_tracking. intros -> -> ->. by destruct w.
Qed.

(** The stopped-streaming branch in full, for a member in a channel with
    an open stream session. *)
Lemma streaming_tracking_stop_run m b a w ch start :
  self_stream b = true → self_stream a = false → channel a = Some ch →
  stream_start_times w !! member_id m = Some start →
  ∃ r us' out',
    streaming_tracking m b a w
    = (r, World us' (voice_join_times w)
            (delete (member_id m) (stream_start_times w)) (clock w) (S (ticks w))
            (stats_file w) (io_fault w) out')
    ∧ frame (member_id m) ["stream_time"] (user_stats w) us'
    ∧ (∀ cur s, committed (user_stats w) (member_id m) "stream_time" = Ok cur →
         as_number cur = Some s →
         r = Ok tt
         ∧ committed us' (member_id m) "stream_time"
           = Ok (PNum (s + (clock w (ticks w) - start))%Q)).
Proof.
  unfold streaming_tracking. intros -> -> -> Hss. cbn.
  unfold bind at 1; cbn. unfold bind at 1; cbn.
  set (w0 := with_stdout _ w).
  destruct (credit_stream_time_present m start w0 Hss)
    as (r & us' & out' & Heq & Hfr & Hok).
  exists r, us', out'. by rewrite Heq.
Qed.

(** X5.  A member who stays in a channel and stops streaming, with an
    open stream session and a numeric [stream_time]: the handler returns,
    the entry is removed, [stream_time] grows by the clock reading minus
    the start instant, and the call sessions are untouched. *)
Theorem stop_streaming_credits m b a w start cur s :
  is_none (channel b) = false → is_none (channel a) = false →
  self_stream b = true → self_stream a = false →
  stream_start_times w !! member_id m = Some start →
  stat_of w (member_id m) "stream_time" = Ok cur →
  as_number cur = Some s →
  let w' := (on_voice_state_update m b a w).2 in
  (on_voice_state_update m b a w).1 = Ok tt
  ∧ stream_start_times w' !! member_id m = None
  ∧ stat_of w' (member_id m) "stream_time"
    = Ok (PNum (s + (clock w (ticks w) - start))%Q)
  ∧ voice_join_times w' = voice_join_times w.
Proof.
  intros Hb Ha Hsb Hsa Hss Hcur Hnum. rewrite stat_of_committed in Hcur.
  destruct (channel a) as [ch|] eqn:Hch; [|done].
  cbn. unfold on_voice_state_update, bind.
  rewrite join_leave_tracking_same by (rewrite Hb, Hch; done).
  destruct (streaming_tracking_stop_run m b a w ch start Hsb Hsa Hch Hss)
    as (r & us' & out' & -> & _ & Hok).
  destruct (Hok _ _ Hcur Hnum) as [-> Hs]. cbn.
  rewrite stat_of_committed, lookup_delete_eq. by cbn.
Qed.

(** X6.  A Closed-to-Open event records the clock reading as the member's
    start instant, replacing whatever entry the member had: a join that
    follows a join without a leave in between forgets the earlier start.
    The stream sessions are untouched by the join itself. *)
Theorem join_records_start m b a w :
  closed_to_open b a = true →
  voice_join_times (dispatch (Event m b a) w) !! member_id m
  = Some (clock w (ticks w)).
Proof.
  intros Hj. unfold dispatch, on_voice_state_update; cbn. rewrite bind_snd.
  destruct (join_leave_tracking_join_run m b a w Hj) as (r & us' & out' & -> & _).
  destruct r as [[]|e]; cbn.
  - rewrite (streaming_tracking_same_voice_join_times m b a). cbn.
    apply lookup_insert_eq.
  - apply lookup_insert_eq.
Qed.

(** X7.  A member in a channel who starts streaming: the handler returns,
    the clock reading becomes the member's stream start, and neither the
    statistics nor the call sessions change. *)
Theorem start_streaming_records_start m b a w :
  is_none (channel b) = false → is_none (channel a) = false →
  self_stream b = false → self_stream a = true →
  let w' := (on_voice_state_update m b a w).2 in
  (on_voice_state_update m b a w).1 = Ok tt
  ∧ stream_start_times w'
    = <[member_id m := clock w (ticks w)]> (stream_start_times w)
  ∧ user_stats w' = user_stats w
  ∧ voice_join_times w' = voice_join_times w.
Proof.
  intros Hb Ha Hsb Hsa. destruct (channel a) as [ch|] eqn:Hch; [|done].
  cbn. unfold on_voice_state_update, bind.
  rewrite join_leave_tracking_same by (rewrite Hb, Hch; done).
  by rewrite (streaming_tracking_start_run m b a w ch).
Qed.

Lemma dispatch_not_join_stats_frame m b a w :
  closed_to_open b a = false →
  stats_frame (member_id m) ["call_time"; "stream_time"] w
    (dispatch (Event m b a) w).
Proof.
  intros Hj. unfold dispatch, on_voice_state_update; cbn. rewrite bind_snd.
  pose proof (join_leave_tracking_not_join m b a Hj w) as Hjl.
  destruct (join_leave_tracking m b a w) as [[[]|e] w1]; cbn in *; [|done].
  etrans; [exact Hjl|].
  eapply frame_mono; [|apply (streaming_tracking_stats_frame m b a w1)].
  intros x ->%list_elem_of_singleton. apply elem_of_cons. right.
  by apply elem_of_cons; left.
Qed.

Lemma open_to_closed_not_join b a :
  open_to_closed b a = true → closed_to_open b a = false.
Proof.
  unfold open_to_closed, closed_to_open.
  by destruct (channel b), (channel a).
Qed.

(** The effect of a leave on [call_time], on committed values. *)
Lemma dispatch_leave_call_time m b a w start cur c :
  open_to_closed b a = true →
  voice_join_times w !! member_id m = Some start →
  committed (user_stats w) (member_id m) "call_time" = Ok cur →
  as_number cur = Some c →
  committed (user_stats (dispatch (Event m b a) w)) (member_id m) "call_time"
  = Ok (PNum (c + (clock w (ticks w) - start))%Q)
  ∧ voice_join_times (dispatch (Event m b a) w) !! member_id m = None.
Proof.
  intros Hleave Hvj Hcur Hnum.
  destruct (join_leave_tracking_leave m b a w start cur c Hleave Hvj Hcur Hnum)
    as [Hc Hgone].
  unfold dispatch, on_voice_state_update; cbn. rewrite bind_snd.
  pose proof (streaming_tracking_stats_frame m b a) as Hfr.
  pose proof (streaming_tracking_same_voice_join_times m b a) as Hsame.
  destruct (join_leave_tracking m b a w) as [[[]|ex] w1]; cbn in *; [|done].
  rewrite (Hsame w1). split; [|done].
  rewrite <- Hc. apply (Hfr w1). right. by apply not_in_stream_time.
Qed.

(** X8.  A whole call session.  A member joins (an event that does not
    change the streaming flag) and then leaves, with numeric [call_time]
    and [join_count] at the start: afterwards [call_time] has grown by
    the clock reading at the leave minus the reading at the join,
    [join_count] by one, and no call entry is left. *)
Theorem complete_call_session m b1 a1 b2 a2 w cur_c c cur_j j :
  closed_to_open b1 a1 = true →
  self_stream b1 = self_stream a1 →
  open_to_closed b2 a2 = true →
  stat_of w (member_id m) "call_time" = Ok cur_c → as_number cur_c = Some c →
  stat_of w (member_id m) "join_count" = Ok cur_j → as_number cur_j = Some j →
  let w' := run_events [Event m b1 a1; Event m b2 a2] w in
  stat_of w' (member_id m) "call_time"
  = Ok (PNum (c + (clock w (S (ticks w)) - clock w (ticks w)))%Q)
  ∧ stat_of w' (member_id m) "join_count" = Ok (PNum (j + 1)%Q)
  ∧ voice_join_times w' !! member_id m = None.
Proof.
  intros Hjoin Hstream Hleave Hc Hnc Hj Hnj.
  rewrite stat_of_committed in Hc, Hj. cbn zeta.
  rewrite !stat_of_committed, !run_events_cons.
  change (run_events [] ?x) with x.
  assert (∃ us1 out1,
    dispatch (Event m b1 a1) w
    = World us1 (<[member_id m := clock w (ticks w)]> (voice_join_times w))
        (stream_start_times w) (clock w) (S (ticks w))
        (stats_file w) (io_fault w) out1
    ∧ committed us1 (member_id m) "call_time" = Ok cur_c
    ∧ committed us1 (member_id m) "join_count" = Ok (PNum (j + 1)%Q))
    as (us1 & out1 & -> & Hc1 & Hj1).
  { unfold dispatch, on_voice_state_update; cbn. rewrite bind_snd.
    destruct (join_leave_tracking_join_run m b1 a1 w Hjoin)
      as (r & us1 & out1 & -> & Hfr & Hok).
    destruct (Hok _ _ Hj Hnj) as [-> Hj1].
    rewrite streaming_tracking_same by done. cbn.
    exists us1, out1. split; [done|]. split; [|done].
    rewrite <- Hc. apply Hfr. right. by apply not_in_singleton. }
  set (w1 := World us1 _ _ _ _ _ _ _).
  assert (voice_join_times w1 !! member_id m = Some (clock w (ticks w))) as Hvj1
    by apply lookup_insert_eq.
  destruct (dispatch_leave_call_time m b2 a2 w1 _ cur_c c Hleave Hvj1 Hc1 Hnc)
    as [Hc2 Hgone].
  split; [exact Hc2|]. split; [|exact Hgone].
  rewrite <- Hj1.
  apply (dispatch_not_join_stats_frame m b2 a2 w1
           (open_to_closed_not_join b2 a2 Hleave)).
  right. rewrite !not_elem_of_cons. repeat split; try done. apply not_elem_of_nil.
Qed.

(** ** What an event leaves alone *)

Global Instance same_sessions_of_preorder u : PreOrder (same_sessions_of u).
Proof.
  split; unfold same_sessions_of.
  - by intros w.
  - intros w1 w2 w3 [H1 H2] [H3 H4]. split; congruence.
Qed.

Global Instance same_environment_preorder : PreOrder same_environment.
Proof.
  split; unfold same_environment.
  - by intros w.
  - intros w1 w2 w3 (H1 & H2 & H3) (H4 & H5 & H6). repeat split; congruence.
Qed.

Global Instance keeps_records_preorder : PreOrder keeps_records.
Proof.
  split; unfold keeps_records.
  - by intros w u H.
  - intros w1 w2 w3 H12 H23 u H. by apply H23, H12.
Qed.

Section other_user.
Variables u v : Z.
Hypothesis Hne : u ≠ v.

Lemma print_same_sessions_of l : keeps (same_sessions_of u) (print l).
Proof. by intros w. Qed.
Lemma time_time_same_sessions_of : keeps (same_sessions_of u) time_time.
Proof. by intros w. Qed.
Lemma increment_user_stat_same_sessions_of x f q :
  keeps (same_sessions_of u) (increment_user_stat x f q).
Proof.
  intros w. destruct (increment_user_stat_run x f q w) as (r & us' & Heq & _).
  rewrite Heq. by destruct w.
Qed.
Lemma pop_voice_join_time_same_sessions_of :
  keeps (same_sessions_of u) (pop_voice_join_time v).
Proof.
  intros w. unfold pop_voice_join_time, pop_time.
  destruct (voice_join_times w !! v); [|reflexivity].
  split; cbn; [|done]. by apply lookup_delete_ne.
Qed.
Lemma pop_stream_start_time_same_sessions_of :
  keeps (same_sessions_of u) (pop_stream_start_time v).
Proof.
  intros w. unfold pop_stream_start_time, pop_time.
  destruct (stream_start_times w !! v); [|reflexivity].
  split; cbn; [done|]. by apply lookup_delete_ne.
Qed.
Lemma set_voice_join_time_same_sessions_of now :
  keeps (same_sessions_of u)
    (modify (λ w, with_voice_join_times (<[v := now]> (voice_join_times w)) w)).
Proof. intros w. split; cbn; [|done]. by apply lookup_insert_ne. Qed.
Lemma set_stream_start_time_same_sessions_of now :
  keeps (same_sessions_of u)
    (modify (λ w, with_stream_start_times (<[v := now]> (stream_start_times w)) w)).
Proof. intros w. split; cbn; [done|]. by apply lookup_insert_ne. Qed.

End other_user.

#[global] Hint Resolve
  print_same_sessions_of time_time_same_sessions_of
  increment_user_stat_same_sessions_of : keeps.
#[global] Hint Extern 1 (keeps (same_sessions_of _) (pop_voice_join_time _)) =>
  apply pop_voice_join_time_same_sessions_of; congruence : keeps.
#[global] Hint Extern 1 (keeps (same_sessions_of _) (pop_stream_start_time _)) =>
  apply pop_stream_start_time_same_sessions_of; congruence : keeps.
#[global] Hint Extern 1 (keeps (same_sessions_of _) (modify _)) =>
  first [ apply set_voice_join_time_same_sessions_of
        | apply set_stream_start_time_same_sessions_of ]; congruence : keeps.

Lemma on_voice_state_update_same_sessions_of m b a u :
  u ≠ member_id m →
  keeps (same_sessions_of u) (on_voice_state_update m b a).
Proof.
  intros Hne.
  unfold on_voice_state_update, join_leave_tracking, streaming_tracking,
    credit_call_time, credit_stream_time_on_leave, credit_stream_time.
  keeps_auto.
Qed.

(** X9.  Events of other members do not concern a user: after any run of
    events none of which is the user's, the user's two session entries
    and every statistic of the user read as before. *)
Theorem other_members_events_leave_user_alone (es : list event) (w : world) u :
  Forall (λ e, member_id (ev_member e) ≠ u) es →
  voice_join_times (run_events es w) !! u = voice_join_times w !! u
  ∧ stream_start_times (run_events es w) !! u = stream_start_times w !! u
  ∧ ∀ f, stat_of (run_events es w) u f = stat_of w u f.
Proof.
  intros Hes. revert w.
  induction Hes as [|e es He Hes IH]; intros w; [done|].
  rewrite run_events_cons. destruct (IH (dispatch e w)) as (H1 & H2 & H3).
  destruct e as [m b a]; cbn in He.
  destruct (on_voice_state_update_same_sessions_of m b a u (not_eq_sym He) w)
    as [H4 H5].
  unfold dispatch in *; cbn in *.
  rewrite H1, H2, H4, H5. repeat split. intros f.
  rewrite H3, !stat_of_committed.
  apply on_voice_state_update_other_user. congruence.
Qed.

Lemma print_same_environment l : keeps same_environment (print l).
Proof. by intros w. Qed.
Lemma time_time_same_environment : keeps same_environment time_time.
Proof. by intros w. Qed.
Lemma pop_voice_join_time_same_environment v :
  keeps same_environment (pop_voice_join_time v).
Proof.
  intros w. unfold pop_voice_join_time, pop_time.
  by destruct (voice_join_times w !! v).
Qed.
Lemma pop_stream_start_time_same_environment v :
  keeps same_environment (pop_stream_start_time v).
Proof.
  intros w. unfold pop_stream_start_time, pop_time.
  by destruct (stream_start_times w !! v).
Qed.
Lemma set_voice_join_time_same_environment (f : world → gmap Z Q) :
  keeps same_environment (modify (λ w, with_voice_join_times (f w) w)).
Proof. by intros w. Qed.
Lemma set_stream_start_time_same_environment (f : world → gmap Z Q) :
  keeps same_environment (modify (λ w, with_stream_start_times (f w) w)).
Proof. by intros w. Qed.
Lemma increment_user_stat_same_environment x f q :
  keeps same_environment (increment_user_stat x f q).
Proof.
  intros w. destruct (increment_user_stat_run x f q w) as (r & us' & Heq & _).
  rewrite Heq. by destruct w.
Qed.

Lemma print_keeps_records l : keeps keeps_records (print l).
Proof. by intros w u H. Qed.
Lemma time_time_keeps_records : keeps keeps_records time_time.
Proof. by intros w u H. Qed.
Lemma pop_voice_join_time_keeps_records v :
  keeps keeps_records (pop_voice_join_time v).
Proof.
  intros w. unfold pop_voice_join_time, pop_time.
  by destruct (voice_join_times w !! v); intros u H.
Qed.
Lemma pop_stream_start_time_keeps_records v :
  keeps keeps_records (pop_stream_start_time v).
Proof.
  intros w. unfold pop_stream_start_time, pop_time.
  by destruct (stream_start_times w !! v); intros u H.
Qed.
Lemma set_voice_join_time_keeps_records (f : world → gmap Z Q) :
  keeps keeps_records (modify (λ w, with_voice_join_times (f w) w)).
Proof. by intros w u H. Qed.
Lemma set_stream_start_time_keeps_records (f : world → gmap Z Q) :
  keeps keeps_records (modify (λ w, with_stream_start_times (f w) w)).
Proof. by intros w u H. Qed.
Lemma init_if_absent_keeps_records x : keeps keeps_records (init_if_absent x).
Proof.
  intros w u H. unfold init_if_absent.
  destruct (user_stats w !! x) eqn:E; [done|]. cbn.
  rewrite lookup_insert. by case_decide.
Qed.
Lemma user_record_keeps_records x : keeps keeps_records (user_record x).
Proof. intros w u H. unfold user_record. by destruct (user_stats w !! x). Qed.
Lemma set_record_keeps_records x r :
  keeps keeps_records
    (modify (λ w, with_user_stats (<[x := r]> (user_stats w)) w)).
Proof. intros w u H. cbn. rewrite lookup_insert. by case_decide. Qed.

#[global] Hint Resolve
  print_same_environment time_time_same_environment
  pop_voice_join_time_same_environment pop_stream_start_time_same_environment
  set_voice_join_time_same_environment set_stream_start_time_same_environment
  increment_user_stat_same_environment
  print_keeps_records time_time_keeps_records
  pop_voice_join_time_keeps_records pop_stream_start_time_keeps_records
  set_voice_join_time_keeps_records set_stream_start_time_keeps_records
  init_if_absent_keeps_records user_record_keeps_records
  set_record_keeps_records : keeps.

Lemma increment_user_stat_keeps_records x f q :
  keeps keeps_records (increment_user_stat x f q).
Proof. unfold increment_user_stat, get_user_stat. keeps_auto. Qed.

#[global] Hint Resolve increment_user_stat_keeps_records : keeps.

Lemma on_voice_state_update_same_environment m b a :
  keeps same_environment (on_voice_state_update m b a).
Proof.
  unfold on_voice_state_update, join_leave_tracking, streaming_tracking,
    credit_call_time, credit_stream_time_on_leave, credit_stream_time.
  keeps_auto.
Qed.

Lemma on_voice_state_update_keeps_records m b a :
  keeps keeps_records (on_voice_state_update m b a).
Proof.
  unfold on_voice_state_update, join_leave_tracking, streaming_tracking,
    credit_call_time, credit_stream_time_on_leave, credit_stream_time.
  keeps_auto.
Qed.

Lemma run_events_keeps (R : relation world) `{!PreOrder R} :
  (∀ m b a, keeps R (on_voice_state_update m b a)) →
  ∀ es w, R w (run_events es w).
Proof.
  intros Hstep es. induction es as [|[m b a] es IH]; intros w; [reflexivity|].
  rewrite run_events_cons. etrans; [|apply IH]. apply Hstep.
Qed.

(** X10.  Events alone persist nothing and forget nobody: after any run
    of events the stats file is what it was, and every user who had a
    record still has one. *)
Theorem events_never_persist_nor_forget (es : list event) (w : world) :
  stats_file (run_events es w) = stats_file w
  ∧ ∀ u, is_Some (user_stats w !! u) →
         is_Some (user_stats (run_events es w) !! u).
Proof.
  split.
  - apply (run_events_keeps same_environment
             on_voice_state_update_same_environment es w).
  - apply (run_events_keeps keeps_records
             on_voice_state_update_keeps_records es w).
Qed.

(** ** Invariants of the session tracker *)

Section invariant.
Variables P D : Q → Prop.
Hypothesis P0 : P 0%Q.
Hypothesis Pstep : ∀ a v, P a → D v → P (a + v)%Q.
Hypothesis D1 : D 1%Q.

Lemma numeric_record_zero_record : numeric_record P zero_record.
Proof.
  eexists; split; [reflexivity|]. intros f x. cbn.
  repeat case_decide; intros; simplify_eq; eauto.
Qed.

Lemma numeric_record_number d f :
  numeric_record P (PDict d) →
  ∃ a, from_option (λ v, v) (PNum 0) (dict_get f d) = PNum a ∧ P a.
Proof.
  intros (d' & [= <-] & Hd). destruct (dict_get f d) as [x|] eqn:Hf; cbn.
  - destruct (Hd f x Hf) as (q & -> & Hq). eauto.
  - eauto.
Qed.

Lemma numeric_record_set d f a :
  numeric_record P (PDict d) → P a →
  numeric_record P (PDict (dict_set f (PNum a) d)).
Proof.
  intros (d' & [= <-] & Hd) Ha. eexists; split; [reflexivity|].
  intros g x. destruct (decide (f = g)) as [<-|Hne].
  - rewrite dict_get_set_eq. intros [= <-]. eauto.
  - rewrite dict_get_set_ne by done. apply Hd.
Qed.

(** On a numeric store [increment_user_stat] returns and the store stays
    numeric. *)
Lemma increment_user_stat_numeric u f v w :
  numeric_store P (user_stats w) → D v →
  ∃ us', increment_user_stat u f v w = (Ok tt, with_user_stats us' w)
         ∧ numeric_store P us'.
Proof.
  intros Hus Hv. destruct w as [us vj ss clk t fl io out]; cbn in *.
  assert (∃ d, materialize u us !! u = Some (PDict d)
               ∧ numeric_record P (PDict d)
               ∧ numeric_store P (materialize u us)) as (d & Hm & Hd & Hst).
  { unfold materialize. destruct (us !! u) as [r|] eqn:E.
    - destruct (Hus u r E) as (d & -> & Hd). exists d.
      split; [done|]. split; [by exists d|done].
    - rewrite lookup_insert_eq.
      destruct numeric_record_zero_record as (d & Hz & Hd). rewrite Hz.
      exists d. split; [done|]. split; [by exists d|].
      intros u' r'. rewrite lookup_insert. case_decide.
      + intros [= <-]. by exists d.
      + apply Hus. }
  destruct (numeric_record_number d f Hd) as (a & Hcur & Ha).
  unfold increment_user_stat. unfold bind at 1. rewrite get_user_stat_run.
  unfold committed; cbn.
  replace (default zero_record (us !! u)) with (PDict d).
  2:{ unfold materialize in Hm. destruct (us !! u) eqn:E; cbn.
      - congruence.
      - rewrite lookup_insert_eq in Hm. congruence. }
  cbn. rewrite Hcur.
  unfold bind, init_if_absent, lift, user_record, modify, py_add; cbn.
  rewrite Hm; cbn. rewrite Hm; cbn.
  eexists. split; [reflexivity|].
  intros u' r'. rewrite lookup_insert. case_decide.
  - intros [= <-]. apply numeric_record_set; [done|]. by apply Pstep.
  - apply Hst.
Qed.

(** Moving on in time, with sessions that are old ones or were started at
    a reading taken since. *)
Lemma tracker_inv_advance w us' vj' ss' t' out' :
  tracker_inv P D w →
  numeric_store P us' →
  (ticks w ≤ t')%nat →
  (∀ u s, vj' !! u = Some s →
     voice_join_times w !! u = Some s
     ∨ ∃ i, (i < t')%nat ∧ s = clock w i) →
  (∀ u s, ss' !! u = Some s →
     stream_start_times w !! u = Some s
     ∨ ∃ i, (i < t')%nat ∧ s = clock w i) →
  tracker_inv P D
    (World us' vj' ss' (clock w) t' (stats_file w) (io_fault w) out').
Proof.
  intros (Hus & Hses & Hclk) Hus' Ht Hvj Hss. split; [done|]. split; [|done].
  intros k u s Hk j Hj; cbn in *.
  destruct k; cbn in Hk.
  - destruct (Hvj u s Hk) as [Hold|(i & Hi & ->)].
    + apply (Hses CallSession u s Hold). lia.
    + apply Hclk. lia.
  - destruct (Hss u s Hk) as [Hold|(i & Hi & ->)].
    + apply (Hses StreamSession u s Hold). lia.
    + apply Hclk. lia.
Qed.

Lemma safe_bind {A B} (m : M A) (k : A → M B) :
  safe (tracker_inv P D) m → (∀ a, safe (tracker_inv P D) (k a)) →
  safe (tracker_inv P D) (bind m k).
Proof.
  intros Hm Hk w Hw. destruct (Hm w Hw) as (a & w1 & Heq & Hw1).
  unfold bind. rewrite Heq. by apply Hk.
Qed.

Lemma safe_ret {A} (a : A) : safe (tracker_inv P D) (ret a).
Proof. intros w Hw. by exists a, w. Qed.

Lemma safe_print l : safe (tracker_inv P D) (print l).
Proof.
  intros w Hw. eexists tt, _. split; [reflexivity|].
  destruct Hw as (Hus & Hses & Hclk).
  apply (tracker_inv_advance w); try done; eauto.
Qed.

Ltac credit_safe u k H :=
  let w := fresh "w" in
  let Hw := fresh "Hw" in
  let start := fresh "start" in
  let E := fresh "E" in
  intros w Hw;
  destruct (open_sessions k w !! u) as [start|] eqn:E; cbn in E;
  [ pose proof Hw as (Hus & Hses & Hclk);
    pose proof (Hses k u start E (ticks w) (le_n _)) as Hd;
    destruct w as [us vj ss clk t fl io out]; cbn in *;
    unfold bind, gets, contains, pop_voice_join_time, pop_stream_start_time,
      pop_time, time_time; cbn; repeat (rewrite E; cbn);
    match goal with
    | |- context [increment_user_stat ?x ?f ?v ?w1] =>
        destruct (increment_user_stat_numeric x f v w1 Hus Hd) as (us' & -> & Hus')
    end; cbn;
    eexists tt, _; split; [reflexivity|];
    apply (tracker_inv_advance (World us vj ss clk t fl io out));
      [done|done|cbn; lia| |]; cbn;
      intros ? ? Hl; left;
      first [ exact Hl | by apply lookup_delete_Some in Hl as [_ ?] ]
  | eexists tt, w; split; [|done] ].

Lemma credit_call_time_safe m : safe (tracker_inv P D) (credit_call_time m).
Proof.
  unfold credit_call_time.
  credit_safe (member_id m) CallSession H.
  by apply credit_call_time_absent.
Qed.

Lemma credit_stream_time_on_leave_safe m :
  safe (tracker_inv P D) (credit_stream_time_on_leave m).
Proof.
  unfold credit_stream_time_on_leave.
  credit_safe (member_id m) StreamSession H.
  by apply credit_stream_time_on_leave_absent.
Qed.

Lemma credit_stream_time_safe m : safe (tracker_inv P D) (credit_stream_time m).
Proof.
  unfold credit_stream_time.
  credit_safe (member_id m) StreamSession H.
  by apply credit_stream_time_absent.
Qed.

Lemma join_leave_tracking_safe m b a :
  safe (tracker_inv P D) (join_leave_tracking m b a).
Proof.
  unfold join_leave_tracking.
  destruct (channel b) as [cb|], (channel a) as [ca|]; cbn.
  - apply safe_ret.
  - apply safe_bind; [apply safe_ret|intros chan].
    apply safe_bind; [apply safe_print|intros _].
    apply safe_bind; [apply credit_call_time_safe|intros _].
    apply credit_stream_time_on_leave_safe.
  - intros w Hw. pose proof Hw as (Hus & Hses & Hclk).
    destruct w as [us vj ss clk t fl io out]; cbn in *.
    unfold bind; cbn.
    match goal with
    | |- context [increment_user_stat ?x ?f ?v ?w1] =>
        destruct (increment_user_stat_numeric x f v w1 Hus D1) as (us' & -> & Hus')
    end; cbn.
    eexists tt, _. split; [reflexivity|].
    apply (tracker_inv_advance (World us vj ss clk t fl io out));
      [done|done|cbn; lia| |]; cbn.
    + intros u s. rewrite lookup_insert. case_decide.
      * intros [= <-]. right. exists t. split; [lia|done].
      * by left.
    + intros u s Hl. by left.
  - apply safe_ret.
Qed.

(** The streaming half under the invariant: it raises on the one
    combination, before writing anything, and returns otherwise. *)
Lemma streaming_tracking_inv m b a w :
  tracker_inv P D w →
  ∃ w', streaming_tracking m b a w
        = (if starts_streaming_nowhere b a then Raise AttributeError else Ok tt,
           w')
        ∧ tracker_inv P D w'.
Proof.
  intros Hw. unfold streaming_tracking, starts_streaming_nowhere.
  destruct (self_stream b), (self_stream a), (channel a) as [ch|]; cbn;
    try (by exists w).
  - assert (safe (tracker_inv P D)
      (let! chan := ret (name ch) in
       print (StoppedStreaming (display_name m) chan) >> credit_stream_time m))
      as Hsafe.
    { apply safe_bind; [apply safe_ret|intros chan].
      apply safe_bind; [apply safe_print|intros _].
      apply credit_stream_time_safe. }
    destruct (Hsafe w Hw) as ([] & w' & Heq & Hw'). by exists w'.
  - pose proof Hw as (Hus & Hses & Hclk).
    destruct w as [us vj ss clk t fl io out]; cbn in *.
    eexists. split; [reflexivity|].
    apply (tracker_inv_advance (World us vj ss clk t fl io out));
      [done|done|cbn; lia| |]; cbn.
    + intros u s Hl. by left.
    + intros u s. rewrite lookup_insert. case_decide.
      * intros [= <-]. right. exists t. split; [lia|done].
      * by left.
Qed.

(** The handler under the invariant. *)
Lemma on_voice_state_update_inv m b a w :
  tracker_inv P D w →
  (on_voice_state_update m b a w).1
  = (if starts_streaming_nowhere b a then Raise AttributeError else Ok tt)
  ∧ tracker_inv P D (on_voice_state_update m b a w).2.
Proof.
  intros Hw. unfold on_voice_state_update, bind.
  destruct (join_leave_tracking_safe m b a w Hw) as ([] & w1 & -> & Hw1).
  destruct (streaming_tracking_inv m b a w1 Hw1) as (w2 & -> & Hw2).
  by split.
Qed.

Lemma run_events_inv es : ∀ w,
  tracker_inv P D w → tracker_inv P D (run_events es w).
Proof.
  induction es as [|[m b a] es IH]; intros w Hw; [done|].
  rewrite run_events_cons. apply IH.
  apply (on_voice_state_update_inv m b a w Hw).
Qed.

End invariant.

Lemma tracker_inv_initial P D clk file fault :
  clock_within D clk → tracker_inv P D (initial_world clk file fault).
Proof.
  intros Hclk. split; [|split; [|done]].
  - intros u r Hu. cbn in Hu. by rewrite lookup_empty in Hu.
  - intros [] u t Hu; cbn in Hu; by rewrite lookup_empty in Hu.
Qed.

(** X11.  On a store in which every record is a dictionary of numbers,
    the handler raises on exactly one kind of event: the member starts
    streaming and the after snapshot has no channel.  Every other event
    is processed to the end, and in both cases the store is still a
    store of dictionaries of numbers. *)
Theorem handler_raises_only_when_streaming_nowhere m b a w :
  numeric_store (λ _, True) (user_stats w) →
  (on_voice_state_update m b a w).1
  = (if starts_streaming_nowhere b a then Raise AttributeError else Ok tt)
  ∧ numeric_store (λ _, True) (user_stats (on_voice_state_update m b a w).2).
Proof.
  intros Hus.
  assert (tracker_inv (λ _, True) (λ _, True) w) as Hw by by repeat split.
  destruct (on_voice_state_update_inv (λ _, True) (λ _, True) I (λ _ _ _ _, I) I
              m b a w Hw) as [Hr (Hus' & _)].
  by split.
Qed.

Lemma clock_within_monotone clk :
  monotone clk → clock_within (λ q, 0 <= q)%Q clk.
Proof.
  intros Hm i j Hij. specialize (Hm i j Hij). lra.
Qed.

(** X12.  With a clock that never goes back, no duration is ever
    negative: after any run of events from the empty dictionaries, the
    call time and the stream time of every user are numbers that are at
    least zero. *)
Theorem durations_never_negative clk file fault (es : list event) k u :
  monotone clk →
  ∃ q, stat_of (run_events es (initial_world clk file fault)) u (duration_stat k)
       = Ok (PNum q)
       ∧ (0 <= q)%Q.
Proof.
  intros Hm.
  assert (tracker_inv (λ q, 0 <= q)%Q (λ q, 0 <= q)%Q
            (run_events es (initial_world clk file fault))) as (Hus & _).
  { apply run_events_inv.
    - apply Qle_refl.
    - intros a v Ha Hv. lra.
    - done.
    - apply tracker_inv_initial. by apply clock_within_monotone. }
  rewrite stat_of_committed.
  destruct (user_stats (run_events es (initial_world clk file fault)) !! u)
    as [r|] eqn:E.
  - unfold committed. rewrite E. destruct (Hus u r E) as (d & -> & Hd); cbn.
    destruct (dict_get (duration_stat k) d) as [x|] eqn:Hx; cbn.
    + destruct (Hd _ _ Hx) as (q & -> & Hq). eauto.
    + exists 0%Q. split; [done|]. apply Qle_refl.
  - rewrite committed_absent by done. exists 0%Q. split; [done|]. apply Qle_refl.
Qed.

(** * Further properties of saving and loading *)


Lemma dict_get_str_keys (l : list (Z * pyval)) k :
  dict_get (py_str k) ((λ kv, (py_str kv.1, kv.2)) <$> l)
  = (list_to_map l : gmap Z pyval) !! k.
Proof.
  induction l as [|[k0 v0] l IH]; cbn; [done|].
  destruct (decide (py_str k0 = py_str k)) as [Heq|Hne].
  - apply (inj pretty) in Heq as ->. by rewrite lookup_insert_eq.
  - rewrite lookup_insert_ne by congruence. exact IH.
Qed.

(** X14.  In what [save_stats] writes, the record of each user is found
    under the decimal string of the user's id, and users who have no
    record have no such key. *)
Theorem saved_record_under_str_key (us : gmap Z pyval) (k : Z) :
  ∃ kvs, stats_to_save us = PDict kvs ∧ dict_get (py_str k) kvs = us !! k.
Proof.
  eexists. split; [reflexivity|].
  by rewrite dict_get_str_keys, list_to_map_to_list.
Qed.

(** X15.  [load_stats] replaces [user_stats] by what the file says,
    whatever was in memory: two worlds with the same file and the same
    file system load the same mapping.  It leaves the open sessions and
    the file itself as they were. *)
Theorem load_stats_forgets_memory (w1 w2 : world) :
  stats_file w1 = stats_file w2 → io_fault w1 = io_fault w2 →
  user_stats (load_stats w1).2 = user_stats (load_stats w2).2
  ∧ voice_join_times (load_stats w1).2 = voice_join_times w1
  ∧ stream_start_times (load_stats w1).2 = stream_start_times w1
  ∧ stats_file (load_stats w1).2 = stats_file w1.
Proof.
  destruct w1 as [us1 vj1 ss1 clk1 t1 fl1 io1 out1].
  destruct w2 as [us2 vj2 ss2 clk2 t2 fl2 io2 out2]. cbn.
  intros <- <-.
  unfold load_stats, bind, gets, try_except, open_read, lift; cbn.
  destruct fl1 as [[e|v]|]; cbn; [destruct io1; cbn; [done|by destruct e]| |done].
  destruct io1; cbn; [done|].
  destruct (items v) as [kvs|e]; cbn; [|by destruct e].
  destruct (int_keys kvs ∅) as [m|e]; cbn; [done|by destruct e].
Qed.



(** * Further properties of [format_duration] *)

Lemma py_int_of_number_floor s : (0 <= s)%Q → py_int_of_number s = Qfloor s.
Proof.
  destruct s as [n d]. unfold Qle, py_int_of_number, Qfloor; cbn.
  intros Hn. apply Z.quot_div_nonneg; lia.
Qed.

Lemma py_int_of_number_inject_Z z : py_int_of_number (inject_Z z) = z.
Proof. unfold py_int_of_number, inject_Z; cbn. apply Z.quot_1_r. Qed.

Lemma format_duration_nonneg s :
  (0 <= s)%Q → format_duration (PNum s) = str_timedelta (Qfloor s).
Proof.
  intros Hs. unfold format_duration; cbn.
  destruct (Qlt_le_dec s 0) as [Hneg|_]; [lra|].
  by rewrite py_int_of_number_floor.
Qed.

(** X17.  [format_duration] shows whole seconds only, and shows a
    negative number of seconds as zero. *)
Theorem format_duration_whole_seconds s :
  ((s < 0)%Q → format_duration (PNum s) = Ok "0:00:00")
  ∧ ((0 <= s)%Q →
     format_duration (PNum s) = format_duration (PNum (inject_Z (Qfloor s)))).
Proof.
  split; intros Hs.
  - unfold format_duration; cbn.
    destruct (Qlt_le_dec s 0) as [_|Hpos]; [reflexivity|lra].
  - assert (0 <= inject_Z (Qfloor s))%Q as Hfl.
    { change 0%Q with (inject_Z 0). rewrite <- Zle_Qle.
      change 0 with (Qfloor (inject_Z 0)). by apply Qfloor_resp_le. }
    by rewrite !format_duration_nonneg, Qfloor_Z.
Qed.

(** X18.  [format_duration] raises [OverflowError] exactly from
    86400000000000 seconds on, a thousand million days; below that it
    returns a string. *)
Theorem format_duration_overflow s :
  ((s < 86400000000000)%Q → ∃ str, format_duration (PNum s) = Ok str)
  ∧ ((86400000000000 <= s)%Q → format_duration (PNum s) = Raise OverflowError).
Proof.
  split; intros Hs.
  - destruct (Qlt_le_dec s 0) as [Hneg|Hpos].
    + exists "0:00:00". unfold format_duration; cbn.
      destruct (Qlt_le_dec s 0); [reflexivity|lra].
    + rewrite format_duration_nonneg by done.
      assert (Qfloor s < 86400000000000) as Hfl.
      { rewrite Zlt_Qlt. eapply Qle_lt_trans; [apply Qfloor_le|exact Hs]. }
      assert (0 <= Qfloor s) as Hfl0.
      { change 0 with (Qfloor (inject_Z 0)). by apply Qfloor_resp_le. }
      unfold str_timedelta. rewrite decide_False; [eauto|].
      pose proof (Z.div_lt_upper_bound (Qfloor s) 86400 1000000000). lia.
  - rewrite format_duration_nonneg by lra.
    assert (86400000000000 <= Qfloor s) as Hfl.
    { change 86400000000000 with (Qfloor (inject_Z 86400000000000)).
      by apply Qfloor_resp_le. }
    unfold str_timedelta. rewrite decide_True; [done|].
    pose proof (Z.div_le_lower_bound (Qfloor s) 86400 1000000000). lia.
Qed.

(** * The further properties at concrete inputs *)

Lemma monotone_steady_clock : monotone steady_clock.
Proof. intros i j Hij. unfold steady_clock. rewrite <- Zle_Qle. lia. Qed.

(** X1: Alice has joined once; her join count is incremented by 2. *)
Lemma increment_then_get_witness :
  let w := alice_joined steady_clock in
  let w' := (increment_user_stat 7 "join_count" 2 w).2 in
  (increment_user_stat 7 "join_count" 2 w).1 = Ok tt
  ∧ stat_of w' 7 "join_count" = Ok (PNum (1 + 2))
  ∧ (∀ u' g, u' ≠ 7 ∨ g ≠ "join_count" → stat_of w' u' g = stat_of w u' g)
  ∧ voice_join_times w' = voice_join_times w
  ∧ stream_start_times w' = stream_start_times w.
Proof.
  exact (increment_then_get (alice_joined steady_clock) 7 "join_count" 2
           (PNum 1) 1 eq_refl eq_refl).
Defined.

(** X2: a list where a record should be, and a string where a number
    should be. *)
Lemma increment_refused_witness :
  increment_user_stat 7 "call_time" 5 list_record_world
  = (Raise AttributeError, list_record_world)
  ∧ increment_user_stat 7 "call_time" 5 string_field_world
    = (Raise TypeError, string_field_world).
Proof.
  split.
  - refine (proj2 (proj1 (increment_refused list_record_world 7 "call_time" 5)
                     (PList []) eq_refl _)).
    intros d. discriminate.
  - exact (proj2 (increment_refused string_field_world 7 "call_time" 5)
             [("call_time", PStr "long")] (PStr "long") eq_refl eq_refl eq_refl).
Defined.

(** X4: Bob has never been seen in the world where Alice has joined. *)
Lemma query_unseen_user_witness :
  (calltime bob (alice_joined steady_clock)).1
  = Ok (SpentInCalls "bob" "0:00:00")
  ∧ (streamtime bob (alice_joined steady_clock)).1
    = Ok (SpentStreaming "bob" "0:00:00")
  ∧ (joincount bob (alice_joined steady_clock)).1
    = Ok (JoinedTimes "bob" (PNum 0)).
Proof.
  exact (query_unseen_user bob (alice_joined steady_clock)
           eq_refl eq_refl eq_refl).
Defined.

(** X5: Alice joined at 0, streams since 1, and stops at 2. *)
Lemma stop_streaming_credits_witness :
  let w := alice_streaming steady_clock in
  let w' := (on_voice_state_update alice (in_call true) (in_call false) w).2 in
  (on_voice_state_update alice (in_call true) (in_call false) w).1 = Ok tt
  ∧ stream_start_times w' !! 7 = None
  ∧ stat_of w' 7 "stream_time" = Ok (PNum (0 + (2 - 1)))
  ∧ voice_join_times w' = voice_join_times w.
Proof.
  exact (stop_streaming_credits alice (in_call true) (in_call false)
           (alice_streaming steady_clock) 1 (PNum 0) 0
           eq_refl eq_refl eq_refl eq_refl eq_refl eq_refl eq_refl).
Defined.

(** X6: Alice, whose call entry says 0, joins again when the clock
    reads 1. *)
Lemma join_records_start_witness :
  voice_join_times (alice_joined steady_clock) !! 7 = Some 0%Q
  ∧ voice_join_times
      (dispatch (Event alice (away false) (in_call false))
         (alice_joined steady_clock)) !! 7 = Some 1%Q.
Proof.
  split; [reflexivity|].
  exact (join_records_start alice (away false) (in_call false)
           (alice_joined steady_clock) eq_refl).
Defined.

(** X7: Alice, in a call, starts streaming when the clock reads 1. *)
Lemma start_streaming_records_start_witness :
  let w := alice_joined steady_clock in
  let w' := (on_voice_state_update alice (in_call false) (in_call true) w).2 in
  (on_voice_state_update alice (in_call false) (in_call true) w).1 = Ok tt
  ∧ stream_start_times w' = <[7 := 1%Q]> (stream_start_times w)
  ∧ user_stats w' = user_stats w
  ∧ voice_join_times w' = voice_join_times w.
Proof.
  exact (start_streaming_records_start alice (in_call false) (in_call true)
           (alice_joined steady_clock) eq_refl eq_refl eq_refl eq_refl).
Defined.

(** X8: Bob joins at 1 and leaves at 2 in the world where Alice has
    joined. *)
Lemma complete_call_session_witness :
  let w := alice_joined steady_clock in
  let w' := run_events [Event bob (away false) (in_call false);
                        Event bob (in_call false) (away false)] w in
  stat_of w' 8 "call_time" = Ok (PNum (0 + (2 - 1)))
  ∧ stat_of w' 8 "join_count" = Ok (PNum (0 + 1))
  ∧ voice_join_times w' !! 8 = None.
Proof.
  exact (complete_call_session bob (away false) (in_call false)
           (in_call false) (away false) (alice_joined steady_clock)
           (PNum 0) 0 (PNum 0) 0
           eq_refl eq_refl eq_refl eq_refl eq_refl eq_refl eq_refl).
Defined.

(** X9: Bob's session does not concern Alice. *)
Lemma other_members_events_leave_user_alone_witness :
  let w := alice_joined steady_clock in
  let w' := run_events [Event bob (away false) (in_call true);
                        Event bob (in_call true) (away false)] w in
  voice_join_times w' !! 7 = voice_join_times w !! 7
  ∧ stream_start_times w' !! 7 = stream_start_times w !! 7
  ∧ ∀ f, stat_of w' 7 f = stat_of w 7 f.
Proof.
  apply (other_members_events_leave_user_alone
           [Event bob (away false) (in_call true);
            Event bob (in_call true) (away false)]
           (alice_joined steady_clock) 7).
  repeat constructor; cbn; lia.
Defined.

(** X11: in the world where Alice has joined, an event that starts a
    stream without a channel raises and another one does not. *)
Lemma handler_raises_only_when_streaming_nowhere_witness :
  (on_voice_state_update bob (away false) (away true)
     (alice_joined steady_clock)).1 = Raise AttributeError
  ∧ (on_voice_state_update bob (away false) (in_call true)
       (alice_joined steady_clock)).1 = Ok tt.
Proof.
  assert (numeric_store (λ _, True) (user_stats (alice_joined steady_clock)))
    as Hus.
  { apply (handler_raises_only_when_streaming_nowhere
             alice (away false) (in_call false)
             (initial_world steady_clock None false)).
    intros u r Hu. cbn in Hu. by rewrite lookup_empty in Hu. }
  split.
  - exact (proj1 (handler_raises_only_when_streaming_nowhere
                    bob (away false) (away true) _ Hus)).
  - exact (proj1 (handler_raises_only_when_streaming_nowhere
                    bob (away false) (in_call true) _ Hus)).
Defined.

(** X12: Alice's whole session under the steady clock. *)
Lemma durations_never_negative_witness :
  ∃ q, stat_of (run_events [Event alice (away false) (in_call false);
                            Event alice (in_call false) (away false)]
                  (initial_world steady_clock None false)) 7 "call_time"
       = Ok (PNum q)
       ∧ (0 <= q)%Q.
Proof.
  exact (durations_never_negative steady_clock None false
           [Event alice (away false) (in_call false);
            Event alice (in_call false) (away false)]
           CallSession 7 monotone_steady_clock).
Defined.


(** X15: the same file loaded into an empty memory and into a stale
    one. *)
Lemma load_stats_forgets_memory_witness :
  let w1 := colliding_keys_world in
  let w2 := with_user_stats {[ 9 := zero_record ]} colliding_keys_world in
  user_stats (load_stats w1).2 = user_stats (load_stats w2).2
  ∧ voice_join_times (load_stats w1).2 = voice_join_times w1
  ∧ stream_start_times (load_stats w1).2 = stream_start_times w1
  ∧ stats_file (load_stats w1).2 = stats_file w1.
Proof.
  intros w1 w2. exact (load_stats_forgets_memory w1 w2 eq_refl eq_refl).
Defined.


(** X17: three and a half seconds, and minus five. *)
Lemma format_duration_whole_seconds_witness :
  format_duration (PNum (-5)) = Ok "0:00:00"
  ∧ format_duration (PNum (7 # 2)) = format_duration (PNum 3).
Proof.
  split.
  - exact (proj1 (format_duration_whole_seconds (-5)) eq_refl).
  - refine (proj2 (format_duration_whole_seconds (7 # 2)) _). discriminate.
Defined.

(** X18: one second below the bound and the bound itself. *)
Lemma format_duration_overflow_witness :
  (∃ str, format_duration (PNum 86399999999999) = Ok str)
  ∧ format_duration (PNum 86400000000000) = Raise OverflowError.
Proof.
  split.
  - exact (proj1 (format_duration_overflow 86399999999999) eq_refl).
  - refine (proj2 (format_duration_overflow 86400000000000) _). discriminate.
Defined.
